(** * ai_observability_tool: the sanitizing CrewAI observer and its store

    A shallow embedding of [integrations/crewai_integration.py],
    [core/database.py] and [core/models.py], and the properties the
    specification states about them.

    Part I holds the definitions (Python strings, the fragment of [re] the
    observer uses, the sanitization helpers, the SQLite tables, the observer),
    Part II the lemmas and theorems about the statements of the
    specification, Part III further properties read off the code. *)

From Stdlib Require Import String Ascii DecimalString.
From Stdlib Require Import List Bool Arith NArith ZArith QArith Lia.
Import ListNotations.

Close Scope Q_scope.
Close Scope Z_scope.
Close Scope N_scope.
Close Scope string_scope.
Open Scope nat_scope.
Open Scope list_scope.

Set Implicit Arguments.
Set Warnings "-register-all".

(* ================================================================== *)
(** * Part I: definitions *)
(* ================================================================== *)

(** ** Python [str]: sequences of code points *)

Module PyStr.

Definition char := N.
Definition str := list char.

(** An ASCII literal of the source. *)
Definition py (s : string) : str := map N_of_ascii (list_ascii_of_string s).

Fixpoint str_eqb (a b : str) : bool :=
  match a, b with
  | [], [] => true
  | x :: a', y :: b' => N.eqb x y && str_eqb a' b'
  | _, _ => false
  end.

Fixpoint starts_with (p s : str) : bool :=
  match p, s with
  | [], _ => true
  | x :: p', y :: s' => N.eqb x y && starts_with p' s'
  | _ :: _, [] => false
  end.

(** [sub in s] on strings: substring containment. *)
Fixpoint contains (sub s : str) : bool :=
  starts_with sub s ||
  match s with
  | [] => false
  | _ :: s' => contains sub s'
  end.

(** [str(n)] for an [int]. *)
Definition str_of_int (z : Z) : str := py (NilZero.string_of_int (Z.to_int z)).

Definition in_range (lo hi c : N) : bool := (N.leb lo c && N.leb c hi)%bool.
Definition is_ascii (c : char) : bool := N.ltb c 128.
Definition ascii_upper : char -> bool := in_range 65 90.
Definition ascii_lower : char -> bool := in_range 97 122.
Definition ascii_digit : char -> bool := in_range 48 57.
Definition is_char (a : ascii) (c : char) : bool := N.eqb c (N_of_ascii a).

(** The Unicode character database is not part of the repository: what
    [str.lower] and the classes [\d], [\w], [\s] of [re] do beyond ASCII is
    taken as a parameter. Inside ASCII everything is fixed below. Lower-casing
    is taken character by character; the one rule of [str.lower] that looks
    at the neighbours (final sigma) chooses between two non-ASCII letters. *)
Class Unicode := {
  uni_decimal : char -> bool;   (* category Nd *)
  uni_alnum : char -> bool;     (* str.isalnum *)
  uni_space : char -> bool;     (* str.isspace *)
  uni_lower : char -> str       (* the lower-case mapping of one character *)
}.

(** Tables that know of no character beyond ASCII; used to run examples. *)
Definition ascii_tables : Unicode :=
  {| uni_decimal := fun _ => false;
     uni_alnum := fun _ => false;
     uni_space := fun _ => false;
     uni_lower := fun c => [c] |}.

Section Classes.
Context {U : Unicode}.

(** [\d] *)
Definition is_digit (c : char) : bool :=
  if is_ascii c then ascii_digit c else uni_decimal c.

(** [\w]: alphanumerics and the underscore; decimal digits are alphanumeric. *)
Definition is_word (c : char) : bool :=
  if is_ascii c
  then (ascii_upper c || ascii_lower c || ascii_digit c || is_char "_" c)%bool
  else (uni_alnum c || uni_decimal c)%bool.

(** [\s]: in ASCII, [" \t\n\r\f\v"] and the separators 0x1c-0x1f. *)
Definition is_space (c : char) : bool :=
  if is_ascii c
  then (in_range 9 13 c || in_range 28 32 c)%bool
  else uni_space c.

Definition lower_char (c : char) : str :=
  if is_ascii c then (if ascii_upper c then [(c + 32)%N] else [c])
  else uni_lower c.

(** [s.lower()] *)
Definition lower (s : str) : str := flat_map lower_char s.

End Classes.

(** [s[:n]] *)
Definition slice_to (n : nat) (s : str) : str := firstn n s.

End PyStr.
Import PyStr.

(** ** The fragment of [re] used by the observer

    Every pattern of the source is a sequence of word-boundary assertions and
    greedy repetitions of a character class ([\d{3}], [-], [[a-z]+], ...). *)

Module Re.

Inductive atom :=
| Bnd                                                      (* \b *)
| Rep (cls : char -> bool) (lo : nat) (hi : option nat).  (* cls{lo,hi} *)

Definition regex := list atom.

Definition can_more (hi : option nat) : bool :=
  match hi with Some 0 => false | _ => true end.

Section Matcher.
Context {U : Unicode}.

(** Is the next character a word character? False at the end of the text. *)
Definition nextw (s : str) : bool :=
  match s with [] => false | c :: _ => is_word c end.

(** The backtracking matcher. [pw] tells whether the character before the
    current position is a word character (false at the start of the text);
    the result is the length of the match the engine prefers.

    A repetition is greedy: it takes one more character whenever it can and
    falls back to stopping here only when the rest of the pattern fails. *)
Fixpoint m_rep (cls : char -> bool) (k : bool -> str -> option nat)
    (lo : nat) (hi : option nat) (pw : bool) (s : str) {struct s} : option nat :=
  let stop := match lo with O => k pw s | S _ => None end in
  match s with
  | c :: s' =>
      if (cls c && can_more hi)%bool then
        match m_rep cls k (pred lo) (option_map pred hi) (is_word c) s' with
        | Some n => Some (S n)
        | None => stop
        end
      else stop
  | [] => stop
  end.

Fixpoint m_atoms (r : regex) (pw : bool) (s : str) {struct r} : option nat :=
  match r with
  | [] => Some 0
  | Bnd :: r' => if xorb pw (nextw s) then m_atoms r' pw s else None
  | Rep cls lo hi :: r' => m_rep cls (m_atoms r') lo hi pw s
  end.

(** [re.sub(r, repl, s)]: scan left to right; where the pattern matches,
    emit [repl] and resume after the match ([skip] counts the characters of
    the match still to pass over); elsewhere copy the character. None of the
    patterns of the source matches the empty string, so the rule of [re.sub]
    for empty matches is not needed. *)
Fixpoint sub_scan (r : regex) (repl : str) (skip : nat) (pw : bool) (s : str)
    {struct s} : str :=
  match s with
  | [] => []
  | c :: s' =>
      match skip with
      | S k => sub_scan r repl k (is_word c) s'
      | O =>
          match m_atoms r pw s with
          | Some (S n) => repl ++ sub_scan r repl n (is_word c) s'
          | _ => c :: sub_scan r repl 0 (is_word c) s'
          end
      end
  end.

Definition re_sub (r : regex) (repl : str) (s : str) : str :=
  sub_scan r repl 0 false s.

(** [re.search(r, s) is not None], from a position whose left context is [pw]. *)
Fixpoint has_match (r : regex) (pw : bool) (s : str) {struct s} : bool :=
  match m_atoms r pw s with
  | Some (S _) => true
  | _ => match s with
         | [] => false
         | c :: s' => has_match r (is_word c) s'
         end
  end.

Definition re_search (r : regex) (s : str) : bool := has_match r false s.

(** *** What a match is

    [Matches r pw w rest]: read at a position whose left context is [pw] and
    followed by [rest], the pattern [r] can consume exactly [w]. *)

Fixpoint flag_after (pw : bool) (w : str) : bool :=
  match w with
  | [] => pw
  | c :: w' => flag_after (is_word c) w'
  end.

Definition within (hi : option nat) (n : nat) : Prop :=
  match hi with Some h => n <= h | None => True end.

Fixpoint Matches (r : regex) (pw : bool) (w rest : str) {struct r} : Prop :=
  match r with
  | [] => w = []
  | Bnd :: r' => xorb pw (nextw (w ++ rest)) = true /\ Matches r' pw w rest
  | Rep cls lo hi :: r' =>
      exists w1 w2, w = w1 ++ w2 /\ lo <= length w1 /\ within hi (length w1) /\
        forallb cls w1 = true /\ Matches r' (flag_after pw w1) w2 rest
  end.

(** The pattern matches at the head of [s]. *)
Definition occ_here (r : regex) (pw : bool) (s : str) : Prop :=
  exists w rest, s = w ++ rest /\ Matches r pw w rest.

(** The pattern matches somewhere in [s]. *)
Fixpoint Occ (r : regex) (pw : bool) (s : str) {struct s} : Prop :=
  occ_here r pw s \/
  match s with
  | [] => False
  | c :: s' => Occ r (is_word c) s'
  end.

(** The positions the scan of [sub_scan r] copies: does [ri] match at one? *)
Fixpoint KeptOcc (ri r : regex) (skip : nat) (pw : bool) (s : str)
    {struct s} : Prop :=
  match s with
  | [] => False
  | c :: s' =>
      match skip with
      | S k => KeptOcc ri r k (is_word c) s'
      | O =>
          match m_atoms r pw s with
          | Some (S n) => KeptOcc ri r n (is_word c) s'
          | _ => occ_here ri pw s \/ KeptOcc ri r 0 (is_word c) s'
          end
      end
  end.

End Matcher.

(** *** Patterns of the shape [\b ... \b] *)

Record rep := mkrep { rcls : char -> bool; rlo : nat; rhi : option nat }.

Definition atom_of (a : rep) : atom := Rep (rcls a) (rlo a) (rhi a).

(** The pattern without its two assertions. *)
Definition shape (body : list rep) : regex := map atom_of body.

Definition word_bounded (body : list rep) : regex :=
  Bnd :: shape body ++ [Bnd].

(** The words of a body, whatever surrounds them. *)
Fixpoint Lang (body : list rep) (w : str) : Prop :=
  match body with
  | [] => w = []
  | a :: b' =>
      exists w1 w2, w = w1 ++ w2 /\ rlo a <= length w1 /\
        within (rhi a) (length w1) /\ forallb (rcls a) w1 = true /\ Lang b' w2
  end.

(** Characters a match never contains: the brackets of a placeholder. *)
Definition bracket (c : char) : bool := (is_char "[" c || is_char "]" c)%bool.

(** The characters between the brackets of a placeholder. *)
Definition label_char (c : char) : bool := (ascii_upper c || is_char "_" c)%bool.

(** A placeholder: [\[LABEL\]]. *)
Definition placeholder (label : string) : str := py "[" ++ py label ++ py "]".

End Re.
Import Re.

(** ** The sanitization helpers of [CrewAIObserver] *)

Module Sanitize.
Section Sanitize.
Context {U : Unicode}.

Definition lit (a : ascii) : rep := mkrep (is_char a) 1 (Some 1).
Definition digits (lo hi : nat) : rep := mkrep is_digit lo (Some hi).
Definition plus (cls : char -> bool) : rep := mkrep cls 1 None.
Definition one (cls : char -> bool) : rep := mkrep cls 1 (Some 1).

(** [[A-Za-z0-9._%+-]] *)
Definition email_local (c : char) : bool :=
  (ascii_upper c || ascii_lower c || ascii_digit c || is_char "." c ||
   is_char "_" c || is_char "%" c || is_char "+" c || is_char "-" c)%bool.

(** [[A-Za-z0-9.-]] *)
Definition email_domain (c : char) : bool :=
  (ascii_upper c || ascii_lower c || ascii_digit c || is_char "." c ||
   is_char "-" c)%bool.

(** [[A-Z|a-z]]: the bar is a member of the class. *)
Definition email_tld (c : char) : bool :=
  (ascii_upper c || is_char "|" c || ascii_lower c)%bool.

(** [\d{3}-\d{2}-\d{4}] *)
Definition ssn_body : list rep :=
  [digits 3 3; lit "-"; digits 2 2; lit "-"; digits 4 4].
(** [\d{10,12}] *)
Definition mrn_body : list rep := [digits 10 12].
(** [\d{1,2}/\d{1,2}/\d{4}] *)
Definition date_body : list rep :=
  [digits 1 2; lit "/"; digits 1 2; lit "/"; digits 4 4].
(** [[A-Z][a-z]+\s+[A-Z][a-z]+] *)
Definition name_body : list rep :=
  [one ascii_upper; plus ascii_lower; plus is_space;
   one ascii_upper; plus ascii_lower].
(** [\d{3}-\d{3}-\d{4}] *)
Definition phone_body : list rep :=
  [digits 3 3; lit "-"; digits 3 3; lit "-"; digits 4 4].
(** [[A-Za-z0-9._%+-]+@[A-Za-z0-9.-]+\.[A-Z|a-z]{2,}] *)
Definition email_body : list rep :=
  [plus email_local; lit "@"; plus email_domain; lit ".";
   mkrep email_tld 2 None].

Definition ssn_re : regex := word_bounded ssn_body.
Definition mrn_re : regex := word_bounded mrn_body.
Definition date_re : regex := word_bounded date_body.
Definition name_re : regex := word_bounded name_body.
Definition phone_re : regex := word_bounded phone_body.
Definition email_re : regex := word_bounded email_body.

(** The six substitutions of [_sanitize_ehr_content], in the order of the
    source: the text as it stands just before the truncation. *)
Definition redact (content : str) : str :=
  let content := re_sub ssn_re (placeholder "SSN") content in
  let content := re_sub mrn_re (placeholder "MRN") content in
  let content := re_sub date_re (placeholder "DATE") content in
  let content := re_sub name_re (placeholder "PATIENT_NAME") content in
  let content := re_sub phone_re (placeholder "PHONE") content in
  re_sub email_re (placeholder "EMAIL") content.

Definition _sanitize_ehr_content (content : str) : str :=
  match content with
  | [] => []
  | _ =>
      let content := redact content in
      if 500 <? length content
      then slice_to 500 content ++ py "...[TRUNCATED]"
      else content
  end.

Definition _sanitize_task_description (task : str) : str :=
  slice_to 200 (_sanitize_ehr_content task).

Definition _classify_task (task : str) : str :=
  let task_lower := lower task in
  if (contains (py "analyze") task_lower || contains (py "review") task_lower)%bool
  then py "ANALYSIS"
  else if (contains (py "extract") task_lower || contains (py "parse") task_lower)%bool
  then py "EXTRACTION"
  else if (contains (py "summarize") task_lower || contains (py "summary") task_lower)%bool
  then py "SUMMARIZATION"
  else if (contains (py "validate") task_lower || contains (py "check") task_lower)%bool
  then py "VALIDATION"
  else py "GENERAL".

End Sanitize.
End Sanitize.
Import Sanitize.

(** ** Python [dict]: insertion-ordered, keyed by strings *)

Module Dict.

Definition dict (V : Type) := list (str * V).

Fixpoint dget {V} (k : str) (d : dict V) : option V :=
  match d with
  | [] => None
  | (k', v) :: d' => if str_eqb k k' then Some v else dget k d'
  end.

Definition dmem {V} (k : str) (d : dict V) : bool :=
  match dget k d with Some _ => true | None => false end.

(** [d[k] = v]: an existing key keeps its place, a new one goes last. *)
Fixpoint dset {V} (k : str) (v : V) (d : dict V) : dict V :=
  match d with
  | [] => [(k, v)]
  | (k', v') :: d' =>
      if str_eqb k k' then (k', v) :: d' else (k', v') :: dset k v d'
  end.

(** [del d[k]] *)
Fixpoint ddel {V} (k : str) (d : dict V) : dict V :=
  match d with
  | [] => []
  | (k', v') :: d' => if str_eqb k k' then d' else (k', v') :: ddel k d'
  end.

(** [d.update(other)] *)
Definition dupdate {V} (d other : dict V) : dict V :=
  fold_left (fun acc kv => dset (fst kv) (snd kv) acc) other d.

(** [d.get(k, default)] *)
Definition dget_default {V} (k : str) (default : V) (d : dict V) : V :=
  match dget k d with Some v => v | None => default end.

End Dict.
Import Dict.

(** ** [core/models.py] *)

Module Models.

(** JSON-serialisable values ([Any] in the annotations of the source).
    A Python float is only stored and read back by the code modelled here;
    it is carried as a rational. *)
Inductive value :=
| VNone
| VBool (b : bool)
| VInt (z : Z)
| VFloat (q : Q)
| VStr (s : str)
| VList (l : list value)
| VDict (d : list (str * value)).

Definition is_str_value (s : str) (v : value) : bool :=
  match v with VStr s' => str_eqb s s' | _ => false end.

Module AgentStatus.
Inductive t := ACTIVE | IDLE | ERROR | OFFLINE.
End AgentStatus.

Module MessageRole.
Inductive t := USER | ASSISTANT | SYSTEM | TOOL.
End MessageRole.

Module EventType.
Inductive t := INFO | WARNING | ERROR | DEBUG.
End EventType.

(** The timestamp fields of the models (defaults: [datetime.utcnow()]) are
    left out: nothing modelled here reads them. So are [Message.tool_calls]
    and [Conversation.messages], which the observer leaves at their defaults
    (the messages of a conversation live in their own table). *)

Record AgentSession := {
  session_id_of : str;
  agent_name : str;
  status : AgentStatus.t;
  configuration : dict value;
  metadata : dict value
}.

Record Message := {
  message_id : str;
  role : MessageRole.t;
  content : str;
  message_metadata : dict value
}.

Record Conversation := {
  conversation_id_of : str;
  conv_session_id : str;
  context : dict value;
  token_usage : dict Z
}.

Record PerformanceMetrics := {
  metrics_id : str;
  metrics_session_id : str;
  metrics_conversation_id : option str;
  response_time_ms : Q;
  token_count_input : Z;
  token_count_output : Z;
  success_rate : Q;
  error_count : Z;
  resource_usage : dict value;
  quality_score : option Q
}.

Record SystemEvent := {
  event_id : str;
  event_type : EventType.t;
  event_session_id : option str;
  event_conversation_id : option str;
  message : str;
  details : dict value;
  stack_trace : option str
}.

End Models.
Import Models.

(** ** [core/database.py] *)

Module Database.

(** What [sqlite3] raises: [OperationalError] when the file cannot be opened
    or a table is missing, [IntegrityError] when a primary key repeats.
    [KeyError] is what indexing a dict at a missing key raises. *)
Inductive exn := OperationalError | IntegrityError | KeyError.

Inductive result (A : Type) :=
| Ok (a : A)
| Raise (e : exn).
Arguments Ok {A} a.
Arguments Raise {A} e.

(** Computations that read and write a state and may raise; what was written
    before an exception stays written. *)
Definition M (S A : Type) := S -> result A * S.

Definition ret {S A} (a : A) : M S A := fun s => (Ok a, s).

Definition bind {S A B} (c : M S A) (k : A -> M S B) : M S B :=
  fun s =>
    match c s with
    | (Ok a, s') => k a s'
    | (Raise e, s') => (Raise e, s')
    end.

Definition raise {S A} (e : exn) : M S A := fun s => (Raise e, s).

Declare Scope monad_scope.
Delimit Scope monad_scope with monad.
Notation "x <- c ;; k" := (bind c (fun x => k))
  (at level 61, c at next level, right associativity) : monad_scope.
Notation "c ;;; k" := (bind c (fun _ => k))
  (at level 61, right associativity) : monad_scope.

(** A message row carries the id of its conversation. *)
Record message_row := {
  row_conversation_id : str;
  row_message : Message
}.

(** The tables. [ready]: the database file opens and [init_database] has
    created the tables. SQLite does not enforce the foreign keys of the
    schema unless asked to, and the source does not ask. *)
Record db := {
  ready : bool;
  agent_sessions : list AgentSession;
  conversations : list Conversation;
  messages : list message_row;
  performance_metrics : list PerformanceMetrics;
  system_events : list SystemEvent
}.

Definition has_id {R} (key : R -> str) (id : str) (table : list R) : bool :=
  existsb (fun r => str_eqb (key r) id) table.

(** [INSERT] into a table whose primary key is [key]. *)
Definition insert {R} (table : db -> list R) (key : R -> str)
    (store : list R -> db -> db) (row : R) : M db str :=
  fun d =>
    if negb (ready d) then (Raise OperationalError, d)
    else if has_id key (key row) (table d) then (Raise IntegrityError, d)
    else (Ok (key row), store (table d ++ [row]) d).

Definition set_sessions (t : list AgentSession) (d : db) : db :=
  {| ready := ready d; agent_sessions := t; conversations := conversations d;
     messages := messages d; performance_metrics := performance_metrics d;
     system_events := system_events d |}.
Definition set_conversations (t : list Conversation) (d : db) : db :=
  {| ready := ready d; agent_sessions := agent_sessions d; conversations := t;
     messages := messages d; performance_metrics := performance_metrics d;
     system_events := system_events d |}.
Definition set_messages (t : list message_row) (d : db) : db :=
  {| ready := ready d; agent_sessions := agent_sessions d;
     conversations := conversations d; messages := t;
     performance_metrics := performance_metrics d;
     system_events := system_events d |}.
Definition set_metrics (t : list PerformanceMetrics) (d : db) : db :=
  {| ready := ready d; agent_sessions := agent_sessions d;
     conversations := conversations d; messages := messages d;
     performance_metrics := t; system_events := system_events d |}.
Definition set_events (t : list SystemEvent) (d : db) : db :=
  {| ready := ready d; agent_sessions := agent_sessions d;
     conversations := conversations d; messages := messages d;
     performance_metrics := performance_metrics d; system_events := t |}.

Definition create_session (session : AgentSession) : M db str :=
  insert agent_sessions session_id_of set_sessions session.

Definition get_session (session_id : str) : M db (option AgentSession) :=
  fun d =>
    if negb (ready d) then (Raise OperationalError, d)
    else (Ok (find (fun r => str_eqb (session_id_of r) session_id)
                (agent_sessions d)), d).

Definition create_conversation (conversation : Conversation) : M db str :=
  insert conversations conversation_id_of set_conversations conversation.

Definition row_id (r : message_row) : str := message_id (row_message r).

Definition add_message (message : Message) (conversation_id : str) : M db str :=
  insert messages row_id set_messages
    {| row_conversation_id := conversation_id; row_message := message |}.

Definition add_metrics (metrics : PerformanceMetrics) : M db str :=
  insert performance_metrics metrics_id set_metrics metrics.

Definition add_event (event : SystemEvent) : M db str :=
  insert system_events event_id set_events event.

(** The row of aggregates of [get_metrics_summary]; [None] is SQL [NULL]. *)
Record summary := {
  total_requests : Z;
  avg_response_time : option Q;
  avg_success_rate : option Q;
  total_input_tokens : option Z;
  total_output_tokens : option Z;
  avg_quality_score : option Q
}.

(** [AVG] and [SUM] range over the values that are not [NULL] and are [NULL]
    themselves when there is none. *)
Definition sql_avg (l : list Q) : option Q :=
  match l with
  | [] => None
  | _ => Some (Qdiv (fold_right Qplus (0#1)%Q l)
                 (inject_Z (Z.of_nat (length l))))
  end.

Definition sql_sum (l : list Z) : option Z :=
  match l with
  | [] => None
  | _ => Some (fold_right Z.add 0%Z l)
  end.

Definition non_null {A} (l : list (option A)) : list A :=
  flat_map (fun o => match o with Some a => [a] | None => [] end) l.

(** The rows the query aggregates: [WHERE session_id = ?] when the argument
    is truthy, every row otherwise. *)
Definition selected_metrics (session_id : option str) (d : db)
  : list PerformanceMetrics :=
  match session_id with
  | Some ((_ :: _) as sid) =>
      filter (fun m => str_eqb (metrics_session_id m) sid) (performance_metrics d)
  | _ => performance_metrics d
  end.

(** An aggregate query without [GROUP BY] always yields one row, so the
    branch of the source that returns an empty dict is never taken. *)
Definition get_metrics_summary (session_id : option str) : M db summary :=
  fun d =>
    if negb (ready d) then (Raise OperationalError, d)
    else
      let rows := selected_metrics session_id d in
      (Ok {| total_requests := Z.of_nat (length rows);
             avg_response_time := sql_avg (map response_time_ms rows);
             avg_success_rate := sql_avg (map success_rate rows);
             total_input_tokens := sql_sum (map token_count_input rows);
             total_output_tokens := sql_sum (map token_count_output rows);
             avg_quality_score := sql_avg (non_null (map quality_score rows)) |},
       d).

End Database.
Import Database.

(** ** [integrations/crewai_integration.py]: [CrewAIObserver] *)

Module Observer.

Record CrewAIObserver := {
  project_name : str;
  active_sessions : dict str;         (* crew_id -> session_id *)
  conversation_contexts : dict str    (* conversation key -> conversation_id *)
}.

(** [CrewAIObserver(project_name)] *)
Definition new_observer (project_name : str) : CrewAIObserver :=
  {| project_name := project_name;
     active_sessions := [];
     conversation_contexts := [] |}.

(** The observer and the store behind the global [db]. *)
Definition state := (CrewAIObserver * db)%type.

Definition db_call {A} (c : M db A) : M state A :=
  fun st => let (r, d) := c (snd st) in (r, (fst st, d)).

Definition self : M state CrewAIObserver := fun st => (Ok (fst st), st).

Definition set_active_sessions (a : dict str) : M state unit :=
  fun st =>
    (Ok tt, ({| project_name := project_name (fst st);
                active_sessions := a;
                conversation_contexts := conversation_contexts (fst st) |},
             snd st)).

Definition set_conversation_contexts (c : dict str) : M state unit :=
  fun st =>
    (Ok tt, ({| project_name := project_name (fst st);
                active_sessions := active_sessions (fst st);
                conversation_contexts := c |},
             snd st)).

(** An exception handed to [log_error]: [type(error).__name__] and
    [str(error)]. *)
Record py_exception := {
  exc_type_name : str;
  exc_str : str
}.

(** [if not session_id: return] lets a session id pass when it is neither
    [None] nor the empty string. *)
Definition truthy (o : option str) : option str :=
  match o with
  | Some ((_ :: _) as s) => Some s
  | _ => None
  end.

Local Open Scope monad_scope.

Section Observer.
Context {U : Unicode}.

Definition denylist : list str :=
  [py "patient_id"; py "ssn"; py "name"; py "email"; py "phone"].

Definition sanitize_entry (key : str) (v : value) : value :=
  if existsb (str_eqb (lower key)) denylist then VStr (py "[REDACTED]")
  else match v with
       | VStr s => VStr (_sanitize_ehr_content s)
       | _ => v
       end.

Definition _sanitize_metadata (metadata : dict value) : dict value :=
  fold_left (fun safe kv => dset (fst kv) (sanitize_entry (fst kv) (snd kv)) safe)
    metadata [].

(** The key under which a crew is tracked: [f"crew_{crew_name}_{int(time.time())}"]. *)
Definition crew_id_of (crew_name : str) (now : Z) : str :=
  py "crew_" ++ crew_name ++ py "_" ++ str_of_int now.

(** The first tracked key, in insertion order, that contains the crew name. *)
Definition _get_session_id (o : CrewAIObserver) (crew_name : str) : option str :=
  match find (fun kv => contains crew_name (fst kv)) (active_sessions o) with
  | Some (_, session_id) => Some session_id
  | None => None
  end.

Definition _log_event (uuid : str) (session_id : str) (event_type : EventType.t)
    (message : str) (details : dict value) : M state str :=
  db_call (add_event
    {| event_id := uuid;
       event_type := event_type;
       event_session_id := Some session_id;
       event_conversation_id := None;
       message := message;
       details := details;
       stack_trace := None |}).

(** The block [start_crew_session] adds to the sanitized metadata. *)
Definition provenance (o : CrewAIObserver) (agents tasks : list str)
  : dict value :=
  [(py "project", VStr (project_name o));
   (py "agent_count", VInt (Z.of_nat (length agents)));
   (py "task_count", VInt (Z.of_nat (length tasks)));
   (py "agents", VList (map VStr agents));
   (py "data_type", VStr (py "EHR"));
   (py "privacy_level", VStr (py "HIPAA_COMPLIANT"))].

(** [now] is [int(time.time())]; [uuid_session] and [uuid_event] are what the
    two calls of [uuid.uuid4()] give. *)
Definition start_crew_session (now : Z) (uuid_session uuid_event : str)
    (crew_name : str) (agents tasks : list str)
    (metadata : option (dict value)) : M state str :=
  let session_id := uuid_session in
  let crew_id := crew_id_of crew_name now in
  o <- self ;;
  let safe_metadata :=
    dupdate
      (_sanitize_metadata (match metadata with Some m => m | None => [] end))
      (provenance o agents tasks) in
  let session :=
    {| session_id_of := session_id;
       agent_name := py "CrewAI: " ++ crew_name;
       status := AgentStatus.ACTIVE;
       configuration :=
         [(py "framework", VStr (py "CrewAI"));
          (py "agents", VList (map VStr agents));
          (py "task_descriptions",
           VList (map (fun task => VStr (_sanitize_task_description task)) tasks))];
       metadata := safe_metadata |} in
  db_call (create_session session) ;;;
  set_active_sessions (dset crew_id session_id (active_sessions o)) ;;;
  _log_event uuid_event session_id EventType.INFO
    (py "Started CrewAI session: " ++ crew_name)
    [(py "agents", VList (map VStr agents));
     (py "tasks_count", VInt (Z.of_nat (length tasks)))] ;;;
  ret session_id.

Definition conversation_key (session_id agent_name category : str) : str :=
  session_id ++ py "_" ++ agent_name ++ py "_" ++ category.

Definition _get_or_create_conversation (uuid : str)
    (session_id agent_name task : str) : M state str :=
  let conversation_key :=
    conversation_key session_id agent_name (_classify_task task) in
  o <- self ;;
  (if negb (dmem conversation_key (conversation_contexts o)) then
     let conversation_id := uuid in
     let conversation :=
       {| conversation_id_of := conversation_id;
          conv_session_id := session_id;
          context :=
            [(py "agent", VStr agent_name);
             (py "task_category", VStr (_classify_task task));
             (py "data_type", VStr (py "EHR_SANITIZED"))];
          token_usage := [] |} in
     db_call (create_conversation conversation) ;;;
     set_conversation_contexts
       (dset conversation_key conversation_id (conversation_contexts o))
   else ret tt) ;;;
  o <- self ;;
  match dget conversation_key (conversation_contexts o) with
  | Some conversation_id => ret conversation_id
  | None => raise KeyError
  end.

(** [token_usage.get(k, 0) if token_usage else 0] *)
Definition token_count (k : str) (token_usage : option (dict Z)) : Z :=
  match token_usage with
  | Some ((_ :: _) as t) => dget_default k 0%Z t
  | _ => 0%Z
  end.

Definition user_message (uuid agent_name task input_data : str) : Message :=
  {| message_id := uuid;
     role := MessageRole.USER;
     content := py "Task: " ++ _sanitize_task_description task ++ [10%N] ++
                py "Input: " ++ _sanitize_ehr_content input_data;
     message_metadata :=
       [(py "agent", VStr agent_name);
        (py "task_type", VStr (_classify_task task));
        (py "data_classification", VStr (py "SANITIZED_EHR"))] |}.

Definition agent_message (uuid agent_name response : str)
    (execution_time_ms : Q) : Message :=
  {| message_id := uuid;
     role := MessageRole.ASSISTANT;
     content := _sanitize_ehr_content response;
     message_metadata :=
       [(py "agent", VStr agent_name);
        (py "execution_time_ms", VFloat execution_time_ms);
        (py "data_classification", VStr (py "SANITIZED_EHR"))] |}.

Definition interaction_metrics (uuid session_id conversation_id : str)
    (agent_name task : str) (execution_time_ms : Q)
    (token_usage : option (dict Z)) : PerformanceMetrics :=
  {| metrics_id := uuid;
     metrics_session_id := session_id;
     metrics_conversation_id := Some conversation_id;
     response_time_ms := execution_time_ms;
     token_count_input := token_count (py "input") token_usage;
     token_count_output := token_count (py "output") token_usage;
     success_rate := (1#1)%Q;
     error_count := 0%Z;
     resource_usage :=
       [(py "agent", VStr agent_name);
        (py "task_category", VStr (_classify_task task))];
     quality_score := None |}.

(** The four uuids: for the conversation (used when one is created), the two
    messages and the metrics row. *)
Definition log_agent_interaction
    (uuid_conv uuid_user uuid_agent uuid_metrics : str)
    (crew_name agent_name task input_data response : str)
    (execution_time_ms : Q) (token_usage : option (dict Z)) : M state unit :=
  o <- self ;;
  match truthy (_get_session_id o crew_name) with
  | None => ret tt
  | Some session_id =>
      conversation_id <-
        _get_or_create_conversation uuid_conv session_id agent_name task ;;
      db_call (add_message
        (user_message uuid_user agent_name task input_data) conversation_id) ;;;
      db_call (add_message
        (agent_message uuid_agent agent_name response execution_time_ms)
        conversation_id) ;;;
      db_call (add_metrics
        (interaction_metrics uuid_metrics session_id conversation_id
           agent_name task execution_time_ms token_usage)) ;;;
      ret tt
  end.

Definition error_event (uuid session_id agent_name : str)
    (error : py_exception) (context : option (dict value)) : SystemEvent :=
  {| event_id := uuid;
     event_type := EventType.ERROR;
     event_session_id := Some session_id;
     event_conversation_id := None;
     message := py "Error in agent " ++ agent_name ++ py ": " ++
                slice_to 200 (exc_str error) ++ py "...";
     details :=
       [(py "agent", VStr agent_name);
        (py "error_type", VStr (exc_type_name error));
        (py "context",
         VDict (_sanitize_metadata
                  (match context with Some c => c | None => [] end)))];
     stack_trace := Some (slice_to 1000 (exc_str error)) |}.

Definition log_error (uuid_event : str) (crew_name agent_name : str)
    (error : py_exception) (context : option (dict value)) : M state unit :=
  o <- self ;;
  match truthy (_get_session_id o crew_name) with
  | None => ret tt
  | Some session_id =>
      db_call (add_event
        (error_event uuid_event session_id agent_name error context)) ;;;
      ret tt
  end.

(** The status and end time are set on the object [get_session] returned and
    go nowhere: the source does not write the session back. *)
Definition end_crew_session (now : Z) (uuid_event : str)
    (crew_name : str) (success : bool) (summary : str) : M state unit :=
  o <- self ;;
  match truthy (_get_session_id o crew_name) with
  | None => ret tt
  | Some session_id =>
      db_call (get_session session_id) ;;;
      _log_event uuid_event session_id
        (if success then EventType.INFO else EventType.ERROR)
        (py "Completed CrewAI session: " ++ crew_name)
        [(py "success", VBool success);
         (py "summary", VStr (slice_to 500 (_sanitize_ehr_content summary)))] ;;;
      let crew_id := crew_id_of crew_name now in
      o <- self ;;
      if dmem crew_id (active_sessions o)
      then set_active_sessions (ddel crew_id (active_sessions o))
      else ret tt
  end.

End Observer.
End Observer.
Import Observer.

(** ** Predicates used to state the properties *)

Module Props.

Inductive category := ANALYSIS | EXTRACTION | SUMMARIZATION | VALIDATION | GENERAL.

Definition category_name (c : category) : str :=
  match c with
  | ANALYSIS => py "ANALYSIS"
  | EXTRACTION => py "EXTRACTION"
  | SUMMARIZATION => py "SUMMARIZATION"
  | VALIDATION => py "VALIDATION"
  | GENERAL => py "GENERAL"
  end.

(** The keyword table of the specification, in priority order. *)
Definition keyword_table : list (category * list str) :=
  [(ANALYSIS, [py "analyze"; py "review"]);
   (EXTRACTION, [py "extract"; py "parse"]);
   (SUMMARIZATION, [py "summarize"; py "summary"]);
   (VALIDATION, [py "validate"; py "check"])].

Section Props.
Context {U : Unicode}.

(** [classifyTask] as the specification words it: lower-case the
    description and return the first category of the table one of whose
    keywords it contains, else GENERAL. *)
Definition classifyTask_spec (description : str) : category :=
  match find (fun row => existsb (fun kw => contains kw (lower description)) (snd row))
          keyword_table with
  | Some (c, _) => c
  | None => GENERAL
  end.

(** A pattern whose matches sit between two word boundaries, are not empty,
    hold no bracket, hold a character that no placeholder label has, and
    depend on their surroundings through the two boundaries only. *)
Definition edged (r : regex) : Prop :=
  (forall pw w rest, Matches r pw w rest ->
     w <> [] /\ Forall (fun c => bracket c = false) w /\
     Exists (fun c => label_char c = false) w /\
     xorb pw (nextw w) = true /\ xorb (flag_after pw w) (nextw rest) = true) /\
  (forall pw w rest pw' rest', Matches r pw w rest ->
     xorb pw' (nextw w) = true -> xorb (flag_after pw' w) (nextw rest') = true ->
     Matches r pw' w rest').

(** A replacement text of the shape [\[LABEL\]]. *)
Definition bracketed (repl : str) : Prop :=
  exists label, repl = py "[" ++ label ++ py "]" /\
                Forall (fun c => label_char c = true) label.

(** The scan of [sub_scan] at [skip], [pw], [s], writing after a character
    whose word flag is [pw']: either it copies and the two flags agree, or it
    is inside or just past a match, which ends at a word boundary. *)
Definition scan_inv (skip : nat) (pw pw' : bool) (s : str) : Prop :=
  (skip = 0 /\ pw' = pw) \/
  (pw' = false /\ exists w rest, s = w ++ rest /\ length w = skip /\
                  xorb (flag_after pw w) (nextw rest) = true).

(** The observer after [conversation_contexts] is replaced. *)
Definition with_contexts (o : CrewAIObserver) (c : dict str) : CrewAIObserver :=
  {| project_name := project_name o;
     active_sessions := active_sessions o;
     conversation_contexts := c |}.

(** The conversation [_get_or_create_conversation] builds. *)
Definition new_conversation (uuid session_id agent_name task : str)
  : Conversation :=
  {| conversation_id_of := uuid;
     conv_session_id := session_id;
     context :=
       [(py "agent", VStr agent_name);
        (py "task_category", VStr (_classify_task task));
        (py "data_type", VStr (py "EHR_SANITIZED"))];
     token_usage := [] |}.

(** The conversations of one (session, agent, task category). *)
Definition of_triple (session_id agent category : str) (c : Conversation) : bool :=
  (str_eqb (conv_session_id c) session_id &&
   match dget (py "agent") (context c) with
   | Some v => is_str_value agent v | None => false end &&
   match dget (py "task_category") (context c) with
   | Some v => is_str_value category v | None => false end)%bool.

Definition conversation_count (session_id agent category : str) (d : db) : nat :=
  length (filter (of_triple session_id agent category) (conversations d)).

End Props.
End Props.
Import Props.

(** ** Concrete stores and observers used in the examples *)

Module Examples.

Definition empty_db : db :=
  {| ready := true; agent_sessions := []; conversations := []; messages := [];
     performance_metrics := []; system_events := [] |}.

(** A store whose file cannot be opened, or whose tables were never created. *)
Definition offline_db : db :=
  {| ready := false; agent_sessions := []; conversations := []; messages := [];
     performance_metrics := []; system_events := [] |}.

(** An observer that tracks the crew "A", started at second 1000. *)
Definition tracking_A : CrewAIObserver :=
  {| project_name := py "EHR";
     active_sessions := [(py "crew_A_1000", py "s-1")];
     conversation_contexts := [] |}.

Definition boom : py_exception :=
  {| exc_type_name := py "ValueError"; exc_str := py "boom" |}.

Definition long_input : str :=
  py "Aa Bb " ++ repeat (N_of_ascii ".") 474 ++ py "123-45-67890".

(** A crew started at second 1000 and ended, twice, one second later. *)
Definition started : state :=
  snd (start_crew_session (U := ascii_tables) 1000 (py "s-1") (py "e-1")
         (py "A") [py "Analyzer"] [py "Analyze the chart"] None
         (new_observer (py "EHR"), empty_db)).

Definition ended_once : state :=
  snd (end_crew_session (U := ascii_tables) 1001 (py "e-2") (py "A") true
         (py "done") started).

Definition ended_twice : result unit * state :=
  end_crew_session (U := ascii_tables) 1001 (py "e-3") (py "A") true
    (py "done") ended_once.

(** The same crew ended, twice, within the second it was started in. *)
Definition ended_at_once : state :=
  snd (end_crew_session (U := ascii_tables) 1000 (py "e-2") (py "A") true
         (py "done") started).

Definition ended_at_once_twice : result unit * state :=
  end_crew_session (U := ascii_tables) 1000 (py "e-3") (py "A") true
    (py "done") ended_at_once.

End Examples.
Import Examples.

(** ** More of [core/database.py] and of the observer's file *)

Module More.

Definition is_active (s : AgentSession) : bool :=
  match status s with
  | AgentStatus.ACTIVE => true
  | _ => false
  end.

(** [SELECT * FROM agent_sessions WHERE status = 'active']. The query has no
    [ORDER BY]; the rows are listed in the order of their insertion, and the
    properties stated of this function do not depend on the order. *)
Definition get_active_sessions : M db (list AgentSession) :=
  fun d =>
    if negb (ready d) then (Raise OperationalError, d)
    else (Ok (filter is_active (agent_sessions d)), d).

(** [ui/dashboard.py]: [len(db.get_active_sessions())]. *)
Definition get_active_sessions_count : M db nat :=
  fun d =>
    match get_active_sessions d with
    | (Ok sessions, d') => (Ok (length sessions), d')
    | (Raise e, d') => (Raise e, d')
    end.

(** What leaves [monitor_crewai_task] when the monitored block fails: the
    exception of the block, re-raised by the bare [raise], or the one the
    handler ran into while it was logging. *)
Inductive raised :=
| Reraised (e : py_exception)
| WhileLogging (e : exn).

Section More.
Context {U : Unicode}.

(** The context manager around a block of work. The block either returns or
    raises an [Exception]; [elapsed] is the time measured in the handler,
    [(time.time() - start_time) * 1000]. The [task] argument of the source is
    not used by it. *)
Definition monitor_crewai_task {A} (uuid_event : str) (elapsed : Q)
    (crew_name agent_name task : str)
    (block : state -> (A + py_exception) * state)
  : state -> (A + raised) * state :=
  fun st =>
    match block st with
    | (inl a, st') => (inl a, st')
    | (inr e, st') =>
        match log_error uuid_event crew_name agent_name e
                (Some [(py "execution_time_ms", VFloat elapsed)]) st' with
        | (Ok _, st'') => (inr (Reraised e), st'')
        | (Raise x, st'') => (inr (WhileLogging x), st'')
        end
    end.

(** One step of the loop of [_sanitize_metadata], on an item. *)
Definition sanitize_item (kv : str * value) : str * value :=
  (fst kv, sanitize_entry (fst kv) (snd kv)).

End More.

(** One table extends another: the old rows, in place, then new ones. *)
Definition extends {R} (old new : list R) : Prop := exists l, new = old ++ l.

(** No row of [d] is gone or changed in [d']. *)
Definition append_only (d d' : db) : Prop :=
  ready d' = ready d /\
  extends (agent_sessions d) (agent_sessions d') /\
  extends (conversations d) (conversations d') /\
  extends (messages d) (messages d') /\
  extends (performance_metrics d) (performance_metrics d') /\
  extends (system_events d) (system_events d').

(** How an insert into [table] ended on the store [d]: with the id of the row
    on a ready store that did not hold it, or with the store untouched and
    the exception that tells why. *)
Definition insert_outcome (d : db) {R} (key : R -> str) (table : db -> list R)
    (row : R) (res : result str * db) : Prop :=
  match fst res with
  | Ok id => id = key row /\ ready d = true /\
             has_id key (key row) (table d) = false
  | Raise e => snd res = d /\
               e = (if ready d then IntegrityError else OperationalError) /\
               (ready d = true -> has_id key (key row) (table d) = true)
  end.

(** A computation of the observer that never removes or changes a row. *)
Definition store_grows {A} (c : M state A) : Prop :=
  forall st, append_only (snd st) (snd (snd (c st))) /\
             project_name (fst (snd (c st))) = project_name (fst st).

(** A block of work that fails, for the examples. *)
Definition failing_block : state -> (unit + py_exception) * state :=
  fun st => (inr boom, st).

(** A session that is active, for the examples. *)
Definition session_A : AgentSession :=
  {| session_id_of := py "s-1";
     agent_name := py "CrewAI: A";
     status := AgentStatus.ACTIVE;
     configuration := [];
     metadata := [] |}.

Definition metrics_A : PerformanceMetrics :=
  {| metrics_id := py "p-1";
     metrics_session_id := py "s-1";
     metrics_conversation_id := None;
     response_time_ms := (5#1)%Q;
     token_count_input := 150%Z;
     token_count_output := 50%Z;
     success_rate := (1#1)%Q;
     error_count := 0%Z;
     resource_usage := [];
     quality_score := None |}.

(** A store that already holds the metrics row [metrics_A]. *)
Definition store_with_metrics_A : db :=
  {| ready := true; agent_sessions := []; conversations := []; messages := [];
     performance_metrics := [metrics_A]; system_events := [] |}.

End More.
Import More.

(* ================================================================== *)
(** * Part II: lemmas and theorems *)
(* ================================================================== *)

(** ** Strings and dicts *)

Lemma str_eqb_eq (a b : str) : str_eqb a b = true <-> a = b.
Proof.
  revert b; induction a as [|x a IH]; intros [|y b]; simpl; split; intro H;
    try reflexivity; try discriminate.
  - apply andb_true_iff in H as [Hx Hr]. apply N.eqb_eq in Hx.
    apply IH in Hr. congruence.
  - injection H as -> ->. rewrite N.eqb_refl. simpl. now apply IH.
Qed.

Lemma str_eqb_refl (a : str) : str_eqb a a = true.
Proof. now apply str_eqb_eq. Qed.

Lemma str_eqb_neq (a b : str) : str_eqb a b = false <-> a <> b.
Proof.
  split.
  - intros H ->. rewrite str_eqb_refl in H. discriminate.
  - intro H. destruct (str_eqb a b) eqn:E; [|reflexivity].
    apply str_eqb_eq in E. contradiction.
Qed.

Lemma dget_dset_same {V} (k : str) (v : V) (d : dict V) :
  dget k (dset k v d) = Some v.
Proof.
  induction d as [|[k' v'] d IH]; simpl.
  - now rewrite str_eqb_refl.
  - destruct (str_eqb k k') eqn:E; simpl; rewrite E; auto.
Qed.

Lemma dget_dset_other {V} (k k' : str) (v : V) (d : dict V) :
  k <> k' -> dget k' (dset k v d) = dget k' d.
Proof.
  intro Hne. induction d as [|[k0 v0] d IH]; simpl.
  - destruct (str_eqb k' k) eqn:E; [|reflexivity].
    apply str_eqb_eq in E. congruence.
  - destruct (str_eqb k k0) eqn:E; simpl.
    + apply str_eqb_eq in E. subst k0.
      destruct (str_eqb k' k) eqn:E'; [|reflexivity].
      apply str_eqb_eq in E'. congruence.
    + now rewrite IH.
Qed.

(** ** The matcher finds a match exactly where one exists *)

Section ReFacts.
Context {U : Unicode}.

Lemma flag_after_app (pw : bool) (a b : str) :
  flag_after pw (a ++ b) = flag_after (flag_after pw a) b.
Proof. revert pw; induction a as [|c a IH]; intro pw; simpl; auto. Qed.

Lemma flag_after_nonempty (p q : bool) (w : str) :
  w <> [] -> flag_after p w = flag_after q w.
Proof. destruct w; [congruence | reflexivity]. Qed.

Lemma nextw_app (w rest : str) : w <> [] -> nextw (w ++ rest) = nextw w.
Proof. destruct w; [congruence | reflexivity]. Qed.

Lemma m_rep_sound cls k s :
  forall lo hi pw n, m_rep cls k lo hi pw s = Some n ->
  exists w1 rest m, s = w1 ++ rest /\ lo <= length w1 /\ within hi (length w1) /\
    forallb cls w1 = true /\ k (flag_after pw w1) rest = Some m /\
    n = length w1 + m.
Proof.
  assert (Hstop : forall lo hi pw s0 n,
    match lo with O => k pw s0 | S _ => None end = Some n ->
    exists w1 rest m, s0 = w1 ++ rest /\ lo <= length w1 /\
      within hi (length w1) /\ forallb cls w1 = true /\
      k (flag_after pw w1) rest = Some m /\ n = length w1 + m).
  { intros lo hi pw s0 n H. destruct lo; [|discriminate].
    exists [], s0, n. simpl. repeat split; auto.
    destruct hi; simpl; lia. }
  induction s as [|c s IH]; intros lo hi pw n H; simpl in H.
  - now apply Hstop.
  - destruct (cls c && can_more hi)%bool eqn:Hc; [|now apply Hstop].
    destruct (m_rep cls k (pred lo) (option_map pred hi) (is_word c) s)
      as [n'|] eqn:Hrec; [|now apply Hstop].
    injection H as <-. apply andb_true_iff in Hc as [Hcls Hmore].
    destruct (IH _ _ _ _ Hrec) as (w1 & rest & m & -> & Hlo & Hhi & Hall & Hk & ->).
    exists (c :: w1), rest, m. simpl. rewrite Hcls, Hall. repeat split; auto.
    + lia.
    + destruct hi as [[|h]|]; simpl in *; try discriminate; lia.
Qed.

Lemma m_rep_complete cls k w1 :
  forall rest lo hi pw, lo <= length w1 -> within hi (length w1) ->
  forallb cls w1 = true ->
  (exists m, k (flag_after pw w1) rest = Some m) ->
  exists n, m_rep cls k lo hi pw (w1 ++ rest) = Some n.
Proof.
  induction w1 as [|c w1 IH]; intros rest lo hi pw Hlo Hhi Hall [m Hk]; simpl in *.
  - assert (lo = 0) by lia. subst lo.
    destruct rest as [|d rest]; simpl; [eauto|].
    destruct (cls d && can_more hi)%bool; [|eauto].
    destruct (m_rep cls k 0 (option_map pred hi) (is_word d) rest); eauto.
  - apply andb_true_iff in Hall as [Hc Hall]. rewrite Hc. simpl.
    assert (Hmore : can_more hi = true).
    { destruct hi as [[|h]|]; simpl in *; auto; lia. }
    rewrite Hmore.
    destruct (IH rest (pred lo) (option_map pred hi) (is_word c)) as [n Hn];
      try lia; auto.
    + destruct hi as [h|]; simpl in *; auto; lia.
    + eauto.
    + rewrite Hn. eauto.
Qed.

Lemma m_atoms_sound r :
  forall pw s n, m_atoms r pw s = Some n ->
  exists w rest, s = w ++ rest /\ length w = n /\ Matches r pw w rest.
Proof.
  induction r as [|[|cls lo hi] r IH]; intros pw s n H; simpl in H.
  - injection H as <-. exists [], s. simpl. auto.
  - destruct (xorb pw (nextw s)) eqn:Hb; [|discriminate].
    destruct (IH _ _ _ H) as (w & rest & -> & Hlen & Hm).
    exists w, rest. simpl. auto.
  - destruct (m_rep_sound _ _ _ _ _ _ H)
      as (w1 & rest1 & m & -> & Hlo & Hhi & Hall & Hk & ->).
    destruct (IH _ _ _ Hk) as (w2 & rest & -> & Hlen & Hm).
    exists (w1 ++ w2), rest. rewrite <- app_assoc, length_app. simpl.
    repeat split; auto. exists w1, w2. auto.
Qed.

Lemma m_atoms_complete r :
  forall pw w rest, Matches r pw w rest ->
  exists n, m_atoms r pw (w ++ rest) = Some n.
Proof.
  induction r as [|[|cls lo hi] r IH]; intros pw w rest H; simpl in *.
  - eauto.
  - destruct H as [Hb Hm]. rewrite Hb. eauto.
  - destruct H as (w1 & w2 & -> & Hlo & Hhi & Hall & Hm).
    rewrite <- app_assoc. apply m_rep_complete; auto.
Qed.

Lemma m_atoms_occ r pw s n : m_atoms r pw s = Some n -> occ_here r pw s.
Proof.
  intro H. destruct (m_atoms_sound _ _ _ H) as (w & rest & -> & _ & Hm).
  exists w, rest. auto.
Qed.

Lemma occ_m_atoms r pw s : occ_here r pw s -> exists n, m_atoms r pw s = Some n.
Proof. intros (w & rest & -> & Hm). eapply m_atoms_complete; eauto. Qed.

(** *** Word-bounded patterns *)

Lemma shape_Matches body :
  forall pw w rest,
  Matches (shape body ++ [Bnd]) pw w rest <->
  Lang body w /\ xorb (flag_after pw w) (nextw rest) = true.
Proof.
  induction body as [|a body IH]; intros pw w rest; simpl.
  - split.
    + intros [Hb ->]. simpl in *. auto.
    + intros [-> Hb]. simpl in *. auto.
  - split.
    + intros (w1 & w2 & -> & Hlo & Hhi & Hall & Hm).
      apply IH in Hm as [HL Hb]. split.
      * exists w1, w2. auto.
      * now rewrite flag_after_app.
    + intros [(w1 & w2 & -> & Hlo & Hhi & Hall & HL) Hb].
      exists w1, w2. repeat split; auto. apply IH. split; auto.
      now rewrite <- flag_after_app.
Qed.

Lemma bounded_Matches body pw w rest :
  Matches (word_bounded body) pw w rest <->
  xorb pw (nextw (w ++ rest)) = true /\ Lang body w /\
  xorb (flag_after pw w) (nextw rest) = true.
Proof.
  unfold word_bounded. simpl. rewrite shape_Matches. tauto.
Qed.

Lemma Lang_Forall (P : char -> Prop) body :
  Forall (fun a => forall c, rcls a c = true -> P c) body ->
  forall w, Lang body w -> Forall P w.
Proof.
  induction 1 as [|a body Ha _ IH]; intros w HL; simpl in HL.
  - subst. constructor.
  - destruct HL as (w1 & w2 & -> & _ & _ & Hall & HL).
    apply Forall_app. split; [|auto].
    rewrite forallb_forall in Hall. apply Forall_forall. auto.
Qed.

Lemma Lang_Exists (P : char -> Prop) body :
  Exists (fun a => 1 <= rlo a /\ forall c, rcls a c = true -> P c) body ->
  forall w, Lang body w -> Exists P w.
Proof.
  induction 1 as [a body [Hlo Ha]|a body _ IH]; intros w HL; simpl in HL;
    destruct HL as (w1 & w2 & -> & Hlo' & _ & Hall & HL);
    apply Exists_app.
  - left. destruct w1 as [|c w1]; simpl in *; [lia|].
    apply andb_true_iff in Hall as [Hc _]. constructor. auto.
  - right. auto.
Qed.

Lemma bounded_edged body :
  Forall (fun a => forall c, rcls a c = true -> bracket c = false) body ->
  Exists (fun a => 1 <= rlo a /\
                   forall c, rcls a c = true -> label_char c = false) body ->
  edged (word_bounded body).
Proof.
  intros Hbr Hsig. split.
  - intros pw w rest H. apply bounded_Matches in H as (Hb1 & HL & Hb2).
    pose proof (Lang_Exists _ Hsig _ HL) as Hex.
    assert (Hne : w <> []) by (intros ->; inversion Hex).
    rewrite nextw_app in Hb1 by auto.
    repeat split; auto. eapply Lang_Forall; eauto.
  - intros pw w rest pw' rest' H Hb1' Hb2'.
    apply bounded_Matches in H as (Hb1 & HL & Hb2).
    pose proof (Lang_Exists _ Hsig _ HL) as Hex.
    assert (Hne : w <> []) by (intros ->; inversion Hex).
    apply bounded_Matches. rewrite nextw_app by auto. auto.
Qed.

End ReFacts.

(** ** A substitution leaves no match behind and creates none *)

Section ScanFacts.
Context {U : Unicode}.

Lemma is_word_open : is_word (N_of_ascii "[") = false.
Proof. reflexivity. Qed.

Lemma is_word_close : is_word (N_of_ascii "]") = false.
Proof. reflexivity. Qed.

Lemma bracket_open : bracket (N_of_ascii "[") = true.
Proof. reflexivity. Qed.

Lemma bracket_close : bracket (N_of_ascii "]") = true.
Proof. reflexivity. Qed.

Lemma bracketed_eq repl :
  bracketed repl ->
  exists label, repl = N_of_ascii "[" :: label ++ [N_of_ascii "]"] /\
                Forall (fun c => label_char c = true) label.
Proof. intros (label & -> & H). exists label. auto. Qed.

Section OneScan.
Variables (ri r : regex) (repl : str).
Hypothesis Hri : edged ri.
Hypothesis Hr : edged r.
Hypothesis Hrepl : bracketed repl.

(** A bracket-free prefix of the output was copied from the input. *)
Lemma kept_prefix w :
  Forall (fun c => bracket c = false) w ->
  forall s pw out, sub_scan r repl 0 pw s = w ++ out ->
  exists s', s = w ++ s' /\ out = sub_scan r repl 0 (flag_after pw w) s'.
Proof.
  destruct (bracketed_eq Hrepl) as (label & -> & _).
  induction 1 as [|c w Hc _ IH]; intros s pw out H; simpl in *.
  - exists s. auto.
  - destruct s as [|d s]; simpl in H; [discriminate|].
    destruct (m_atoms r pw (d :: s)) as [[|n]|] eqn:E; simpl in H.
    + injection H as <- H. destruct (IH _ _ _ H) as (s' & -> & ->). eauto.
    + injection H as <- _. vm_compute in Hc. discriminate.
    + injection H as <- H. destruct (IH _ _ _ H) as (s' & -> & ->). eauto.
Qed.

(** Where the output starts at a word boundary, so does the input. *)
Lemma nextw_scan f s :
  xorb f (nextw (sub_scan r repl 0 f s)) = true -> xorb f (nextw s) = true.
Proof.
  destruct (bracketed_eq Hrepl) as (label & -> & _).
  destruct s as [|d s]; simpl; auto.
  destruct (m_atoms r f (d :: s)) as [[|n]|] eqn:E; simpl; auto.
  intros _. destruct (m_atoms_sound _ _ _ E) as (w & rest & Hs & Hlen & Hm).
  destruct Hr as [Hr1 _]. destruct (Hr1 _ _ _ Hm) as (_ & _ & _ & Hb & _).
  destruct w as [|c w]; simpl in *; [discriminate|].
  injection Hs as <- _. exact Hb.
Qed.

Lemma occ_here_not_bracket pw c s :
  bracket c = true -> ~ occ_here ri pw (c :: s).
Proof.
  intros Hc (w & rest & Hs & Hm).
  destruct Hri as [H1 _]. destruct (H1 _ _ _ Hm) as (Hne & Hbr & _).
  destruct w as [|c' w]; [congruence|]. simpl in Hs. injection Hs as <- _.
  inversion Hbr; subst. congruence.
Qed.

Lemma Occ_cons rx pw c s :
  Occ rx pw (c :: s) -> occ_here rx pw (c :: s) \/ Occ rx (is_word c) s.
Proof. intro H. exact H. Qed.

Lemma occ_label label :
  Forall (fun c => label_char c = true) label ->
  forall pw out, Occ ri pw (label ++ N_of_ascii "]" :: out) -> Occ ri false out.
Proof.
  induction 1 as [|l label Hl Hlabel IH]; intros pw out H.
  - rewrite app_nil_l in H. apply Occ_cons in H as [H|H].
    + exfalso. eapply occ_here_not_bracket; eauto. apply bracket_close.
    + now rewrite is_word_close in H.
  - rewrite <- app_comm_cons in H. apply Occ_cons in H as [H|H];
      [exfalso | eauto].
    destruct H as (w & rest & Hs & Hm).
    destruct Hri as [H1 _]. destruct (H1 _ _ _ Hm) as (_ & Hbr & Hex & _).
    clear - Hs Hbr Hex Hl Hlabel.
    assert (Hall : Forall (fun c => label_char c = true) (l :: label))
      by (constructor; auto).
    rewrite app_comm_cons in Hs.
    revert Hs Hall. generalize (l :: label) as u. clear Hl Hlabel.
    induction w as [|c w IHw]; intros u Hs Hall; [inversion Hex|].
    destruct u as [|d u]; simpl in Hs; injection Hs as Hd Hs.
    + inversion Hbr; subst. vm_compute in H1. discriminate.
    + subst d. inversion Hall; subst. inversion Hbr; subst.
      inversion Hex; subst; [congruence|]. eapply IHw; eauto.
Qed.

Lemma occ_through_repl pw out : Occ ri pw (repl ++ out) -> Occ ri false out.
Proof.
  destruct (bracketed_eq Hrepl) as (label & -> & Hlabel).
  rewrite <- app_comm_cons, <- app_assoc, <- app_comm_cons, app_nil_l.
  intro H. apply Occ_cons in H as [H|H].
  - exfalso. eapply occ_here_not_bracket; eauto. apply bracket_open.
  - eapply occ_label; eauto.
Qed.

(** A match of [ri] in the output of the scan sits at a copied position of
    the input, where [ri] matches as well. *)
Lemma transfer s :
  forall skip pw pw', scan_inv skip pw pw' s ->
  Occ ri pw' (sub_scan r repl skip pw s) -> KeptOcc ri r skip pw s.
Proof.
  induction s as [|c s IH]; intros skip pw pw' Hinv H.
  - simpl in H. destruct H as [(w & rest & Hs & Hm)|[]].
    destruct Hri as [H1 _]. destruct (H1 _ _ _ Hm) as (Hne & _).
    destruct w; [congruence | discriminate].
  - destruct skip as [|k].
    + simpl. simpl in H.
      destruct (m_atoms r pw (c :: s)) as [[|n]|] eqn:E.
      * (* an empty match cannot be *)
        destruct (m_atoms_sound _ _ _ E) as (w & rest & _ & Hlen & Hm).
        destruct Hr as [Hr1 _]. destruct (Hr1 _ _ _ Hm) as (Hne & _).
        destruct w; [congruence | discriminate].
      * apply occ_through_repl in H.
        apply (IH n (is_word c) false); auto.
        right. split; auto.
        destruct (m_atoms_sound _ _ _ E) as (w & rest & Hs & Hlen & Hm).
        destruct Hr as [Hr1 _]. destruct (Hr1 _ _ _ Hm) as (_ & _ & _ & _ & Hb).
        destruct w as [|c' w]; [discriminate|]. simpl in *.
        injection Hs as <- ->. injection Hlen as Hlen.
        exists w, rest. auto.
      * simpl in H. destruct H as [H|H].
        -- left. destruct H as (w & out & Hs & Hm).
           destruct Hri as [H1 H2].
           destruct (H1 _ _ _ Hm) as (Hne & Hbr & _ & Hb1 & Hb2).
           assert (Hscan : sub_scan r repl 0 pw (c :: s) = w ++ out).
           { simpl. rewrite E. exact Hs. }
           destruct (kept_prefix Hbr _ _ _ Hscan) as (s' & Hcs & ->).
           exists w, s'. split; auto.
           apply (H2 _ _ _ pw s' Hm).
           ++ destruct Hinv as [[_ ->]|[-> (w0 & rest0 & Hs0 & Hlen0 & Hb0)]]; auto.
              destruct w0; [|discriminate]. simpl in *. subst rest0.
              destruct w as [|c' w]; [congruence|]. simpl in Hcs.
              injection Hcs as -> _. exact Hb0.
           ++ rewrite (flag_after_nonempty pw' pw Hne) in Hb2.
              now apply nextw_scan.
        -- right. apply (IH 0 (is_word c) (is_word c)); auto.
           left. auto.
    + simpl. simpl in H. apply (IH k (is_word c) pw'); auto.
      destruct Hinv as [[Hk _]|[-> (w & rest & Hs & Hlen & Hb)]]; [discriminate|].
      right. split; auto.
      destruct w as [|c' w]; [discriminate|]. simpl in *.
      injection Hs as <- ->. injection Hlen as Hlen.
      exists w, rest. auto.
Qed.

Lemma kept_occ s :
  forall skip pw, KeptOcc ri r skip pw s -> Occ ri pw s.
Proof.
  induction s as [|c s IH]; intros skip pw H; simpl in H; [contradiction|].
  simpl. destruct skip as [|k]; [|right; eauto].
  destruct (m_atoms r pw (c :: s)) as [[|n]|];
    try (destruct H as [H|H]; [left; exact H | right; eauto]).
  right; eauto.
Qed.

Lemma sub_preserves s :
  ~ Occ ri false s -> ~ Occ ri false (re_sub r repl s).
Proof.
  intros Hno H. apply Hno. apply (kept_occ s 0 false).
  apply (transfer (pw' := false)); auto. left. auto.
Qed.

End OneScan.

Lemma kept_self r (Hr : edged r) s :
  forall skip pw, ~ KeptOcc r r skip pw s.
Proof.
  induction s as [|c s IH]; intros skip pw H; simpl in H; [contradiction|].
  destruct skip as [|k]; [|eapply IH; eauto].
  destruct (m_atoms r pw (c :: s)) as [[|n]|] eqn:E.
  - destruct (m_atoms_sound _ _ _ E) as (w & rest & _ & Hlen & Hm).
    destruct Hr as [Hr1 _]. destruct (Hr1 _ _ _ Hm) as (Hne & _).
    destruct w; [congruence | discriminate].
  - eapply IH; eauto.
  - destruct H as [H|H]; [|eapply IH; eauto].
    apply occ_m_atoms in H as [n Hn]. congruence.
Qed.

Lemma sub_no_self r repl (Hr : edged r) (Hrepl : bracketed repl) s :
  ~ Occ r false (re_sub r repl s).
Proof.
  intro H. apply (kept_self Hr s 0 false).
  apply (transfer Hr Hr Hrepl (pw' := false)); auto. left. auto.
Qed.

(** Where the pattern does not occur, the substitution changes nothing and
    the search finds nothing. *)
Lemma sub_scan_id r repl s :
  forall pw, ~ Occ r pw s -> sub_scan r repl 0 pw s = s.
Proof.
  induction s as [|c s IH]; intros pw H; simpl; auto.
  simpl in H.
  destruct (m_atoms r pw (c :: s)) as [[|n]|] eqn:E.
  - f_equal. apply IH. tauto.
  - exfalso. apply H. left. eapply m_atoms_occ; eauto.
  - f_equal. apply IH. tauto.
Qed.

Lemma re_sub_id r repl s : ~ Occ r false s -> re_sub r repl s = s.
Proof. apply sub_scan_id. Qed.

Lemma has_match_Occ r s :
  forall pw, has_match r pw s = true -> Occ r pw s.
Proof.
  induction s as [|c s IH]; intros pw H; simpl in *.
  - destruct (m_atoms r pw []) as [[|n]|] eqn:E; try discriminate.
    left. eapply m_atoms_occ; eauto.
  - destruct (m_atoms r pw (c :: s)) as [[|n]|] eqn:E; auto.
    left. eapply m_atoms_occ; eauto.
Qed.

Lemma no_Occ_has_match r pw s : ~ Occ r pw s -> has_match r pw s = false.
Proof.
  intro H. destruct (has_match r pw s) eqn:E; auto.
  apply has_match_Occ in E. contradiction.
Qed.

End ScanFacts.

(** ** The six patterns and their placeholders *)

Section SanitizeFacts.
Context {U : Unicode}.

Ltac no_bracket :=
  let c := fresh "c" in
  let H := fresh "H" in
  intros c H; unfold bracket, is_char;
  destruct (N.eqb_spec c (N_of_ascii "[")) as [->|_];
    [vm_compute in H; discriminate|];
  destruct (N.eqb_spec c (N_of_ascii "]")) as [->|_];
    [vm_compute in H; discriminate|];
  reflexivity.

Ltac compare_all :=
  repeat match goal with
  | H : context [N.leb ?a ?b] |- _ => destruct (N.leb_spec a b)
  | H : context [N.ltb ?a ?b] |- _ => destruct (N.ltb_spec a b)
  | H : context [N.eqb ?a ?b] |- _ => destruct (N.eqb_spec a b)
  | |- context [N.leb ?a ?b] => destruct (N.leb_spec a b)
  | |- context [N.eqb ?a ?b] => destruct (N.eqb_spec a b)
  end; simpl in *; try discriminate; try reflexivity; try lia.

Lemma digit_not_label c : is_digit c = true -> label_char c = false.
Proof.
  unfold is_digit, label_char, is_ascii, ascii_digit, ascii_upper, in_range,
    is_char.
  change (N_of_ascii "_") with 95%N. intro H. compare_all.
Qed.

Lemma lower_not_label c : ascii_lower c = true -> label_char c = false.
Proof.
  unfold label_char, ascii_lower, ascii_upper, in_range, is_char.
  change (N_of_ascii "_") with 95%N. intro H. compare_all.
Qed.

Lemma at_not_label c : is_char "@" c = true -> label_char c = false.
Proof.
  unfold label_char, ascii_upper, in_range, is_char.
  change (N_of_ascii "_") with 95%N. change (N_of_ascii "@") with 64%N.
  intro H. compare_all.
Qed.

Lemma ssn_edged : edged ssn_re.
Proof.
  apply bounded_edged.
  - repeat constructor; no_bracket.
  - left. split; [simpl; lia | apply digit_not_label].
Qed.

Lemma mrn_edged : edged mrn_re.
Proof.
  apply bounded_edged.
  - repeat constructor; no_bracket.
  - left. split; [simpl; lia | apply digit_not_label].
Qed.

Lemma date_edged : edged date_re.
Proof.
  apply bounded_edged.
  - repeat constructor; no_bracket.
  - left. split; [simpl; lia | apply digit_not_label].
Qed.

Lemma name_edged : edged name_re.
Proof.
  apply bounded_edged.
  - repeat constructor; no_bracket.
  - right. left. split; [simpl; lia | apply lower_not_label].
Qed.

Lemma phone_edged : edged phone_re.
Proof.
  apply bounded_edged.
  - repeat constructor; no_bracket.
  - left. split; [simpl; lia | apply digit_not_label].
Qed.

Lemma email_edged : edged email_re.
Proof.
  apply bounded_edged.
  - repeat constructor; no_bracket.
  - right. left. split; [simpl; lia | apply at_not_label].
Qed.

Lemma placeholder_bracketed label :
  forallb label_char (py label) = true -> bracketed (placeholder label).
Proof.
  intro H. exists (py label). split; [reflexivity|].
  apply Forall_forall. now apply forallb_forall.
Qed.

Create HintDb edges.
#[local] Hint Resolve ssn_edged mrn_edged date_edged name_edged phone_edged
  email_edged : edges.

Ltac placeholders := apply placeholder_bracketed; reflexivity.

(** After the six substitutions none of the six patterns matches anywhere. *)
Lemma redact_no_ssn x : ~ Occ ssn_re false (redact x).
Proof.
  unfold redact.
  do 5 (apply sub_preserves; auto with edges; [placeholders|]).
  apply sub_no_self; auto with edges. placeholders.
Qed.

Lemma redact_no_mrn x : ~ Occ mrn_re false (redact x).
Proof.
  unfold redact.
  do 4 (apply sub_preserves; auto with edges; [placeholders|]).
  apply sub_no_self; auto with edges. placeholders.
Qed.

Lemma redact_no_date x : ~ Occ date_re false (redact x).
Proof.
  unfold redact.
  do 3 (apply sub_preserves; auto with edges; [placeholders|]).
  apply sub_no_self; auto with edges. placeholders.
Qed.

Lemma redact_no_name x : ~ Occ name_re false (redact x).
Proof.
  unfold redact.
  do 2 (apply sub_preserves; auto with edges; [placeholders|]).
  apply sub_no_self; auto with edges. placeholders.
Qed.

Lemma redact_no_phone x : ~ Occ phone_re false (redact x).
Proof.
  unfold redact.
  apply sub_preserves; auto with edges; [placeholders|].
  apply sub_no_self; auto with edges. placeholders.
Qed.

Lemma redact_no_email x : ~ Occ email_re false (redact x).
Proof.
  unfold redact. apply sub_no_self; auto with edges. placeholders.
Qed.

(** Redacting a redacted text changes nothing. *)
Lemma redact_fixed x : redact (redact x) = redact x.
Proof.
  unfold redact at 1. cbv zeta.
  assert (H1 : forall repl, re_sub ssn_re repl (redact x) = redact x)
    by (intro; apply re_sub_id, redact_no_ssn).
  assert (H2 : forall repl, re_sub mrn_re repl (redact x) = redact x)
    by (intro; apply re_sub_id, redact_no_mrn).
  assert (H3 : forall repl, re_sub date_re repl (redact x) = redact x)
    by (intro; apply re_sub_id, redact_no_date).
  assert (H4 : forall repl, re_sub name_re repl (redact x) = redact x)
    by (intro; apply re_sub_id, redact_no_name).
  assert (H5 : forall repl, re_sub phone_re repl (redact x) = redact x)
    by (intro; apply re_sub_id, redact_no_phone).
  rewrite H1, H2, H3, H4, H5. apply re_sub_id, redact_no_email.
Qed.

(** Below the cap the sanitizer is the redaction. *)
Lemma sanitize_short x :
  length (redact x) <= 500 -> x <> [] -> _sanitize_ehr_content x = redact x.
Proof.
  intros Hlen Hne. destruct x as [|c x]; [congruence|].
  unfold _sanitize_ehr_content.
  destruct (Nat.ltb_spec 500 (length (redact (c :: x)))); [lia | reflexivity].
Qed.

Lemma redact_nil : redact [] = [].
Proof. reflexivity. Qed.

End SanitizeFacts.

(** ** The sanitizer *)

(** C5. On every input that does not exceed 500 characters at the point
    just before the truncation step, that is, whose text after the six
    substitutions has at most 500 characters so that nothing is cut,
    sanitizing twice gives what sanitizing once gives. *)
Theorem sanitize_idempotent {U : Unicode} (x : str) :
  length (redact x) <= 500 ->
  _sanitize_ehr_content (_sanitize_ehr_content x) = _sanitize_ehr_content x.
Proof.
  intro Hlen. destruct x as [|c x]; [reflexivity|].
  rewrite (sanitize_short Hlen) by discriminate.
  destruct (redact (c :: x)) as [|d y] eqn:E; [reflexivity|].
  assert (Hfix : redact (d :: y) = d :: y).
  { rewrite <- E. apply redact_fixed. }
  rewrite sanitize_short.
  - exact Hfix.
  - rewrite Hfix. exact Hlen.
  - discriminate.
Qed.

Lemma sanitize_idempotent_witness :
  _sanitize_ehr_content (U := ascii_tables)
    (_sanitize_ehr_content (U := ascii_tables)
       (py "Call John Smith at 555-123-4567 or j.smith@clinic.org")) =
  _sanitize_ehr_content (U := ascii_tables)
    (py "Call John Smith at 555-123-4567 or j.smith@clinic.org").
Proof.
  apply (sanitize_idempotent (U := ascii_tables)).
  apply Nat.leb_le. vm_compute. reflexivity.
Defined.

(** The bound of C5 is on the text before the cut, not on the raw input: a
    raw input of 492 characters that the placeholders lengthen past the cap is
    cut, the cut exposes a match, and the second pass rewrites it. *)
Lemma sanitize_twice_differs :
  ~ (forall (U : Unicode) (x : str), length x <= 500 ->
       _sanitize_ehr_content (_sanitize_ehr_content x) = _sanitize_ehr_content x).
Proof.
  intro H.
  specialize (H ascii_tables long_input).
  assert (Hlen : length long_input <= 500).
  { apply Nat.leb_le. vm_compute. reflexivity. }
  apply H in Hlen. apply str_eqb_eq in Hlen.
  vm_compute in Hlen. discriminate.
Qed.

(** C6, as amended. When nothing is cut, the output holds no match of the
    SSN pattern and none of the email pattern of the source, both of which
    ask for a word boundary on either side. *)
Theorem sanitize_leaves_no_bounded_match {U : Unicode} (x : str) :
  length (redact x) <= 500 ->
  re_search ssn_re (_sanitize_ehr_content x) = false /\
  re_search email_re (_sanitize_ehr_content x) = false.
Proof.
  intro Hlen. unfold re_search.
  destruct x as [|c x]; [split; reflexivity|].
  rewrite (sanitize_short Hlen) by discriminate.
  split; apply no_Occ_has_match.
  - apply redact_no_ssn.
  - apply redact_no_email.
Qed.

Lemma sanitize_leaves_no_bounded_match_witness :
  re_search (U := ascii_tables) (ssn_re (U := ascii_tables))
    (_sanitize_ehr_content (U := ascii_tables)
       (py "SSN 123-45-6789, mail a.b@c.org, id 1123-45-6789")) = false /\
  re_search (U := ascii_tables) email_re
    (_sanitize_ehr_content (U := ascii_tables)
       (py "SSN 123-45-6789, mail a.b@c.org, id 1123-45-6789")) = false.
Proof.
  apply (sanitize_leaves_no_bounded_match (U := ascii_tables)).
  apply Nat.leb_le. vm_compute. reflexivity.
Defined.

(** C6 as stated fails: digits in the SSN shape that continue a longer run
    of word characters are not at a word boundary and stay in the output. *)
Lemma ssn_shape_survives :
  ~ (forall (U : Unicode) (x : str),
       re_search (shape ssn_body) (_sanitize_ehr_content x) = false /\
       re_search (shape email_body) (_sanitize_ehr_content x) = false).
Proof.
  intro H. destruct (H ascii_tables (py "1123-45-6789")) as [H1 _].
  vm_compute in H1. discriminate.
Qed.

(** Nor does C6 hold of the bounded patterns once the text is cut: the cut
    can end a run of digits and so make a boundary. *)
Lemma truncation_exposes_ssn :
  re_search (U := ascii_tables) (ssn_re (U := ascii_tables))
    (_sanitize_ehr_content (U := ascii_tables)
       (repeat (N_of_ascii ".") 489 ++ py "123-45-67890")) = true.
Proof. vm_compute. reflexivity. Qed.

(** ** Task classification *)

Section ClassifyFacts.
Context {U : Unicode}.

Lemma classify_refines_spec (description : str) :
  _classify_task description = category_name (classifyTask_spec description).
Proof.
  unfold _classify_task, classifyTask_spec, keyword_table. simpl.
  destruct (contains (py "analyze") (lower description));
  destruct (contains (py "review") (lower description));
  destruct (contains (py "extract") (lower description));
  destruct (contains (py "parse") (lower description));
  destruct (contains (py "summarize") (lower description));
  destruct (contains (py "summary") (lower description));
  destruct (contains (py "validate") (lower description));
  destruct (contains (py "check") (lower description)); reflexivity.
Qed.

End ClassifyFacts.

(** C7. [_classify_task] returns one of the five category names, the one
    the priority table of the specification selects on the lower-cased
    description (analyze/review, then extract/parse, then summarize/summary,
    then validate/check, else GENERAL), and "Analyze extracted data" is
    ANALYSIS. *)
Theorem classify_task_priority {U : Unicode} (description : str) :
  In (_classify_task description)
     (map category_name [ANALYSIS; EXTRACTION; SUMMARIZATION; VALIDATION; GENERAL]) /\
  _classify_task description = category_name (classifyTask_spec description) /\
  (forall c1 c2, category_name c1 = category_name c2 -> c1 = c2) /\
  _classify_task (py "Analyze extracted data") = py "ANALYSIS".
Proof.
  split; [|split; [|split]].
  - rewrite classify_refines_spec. apply in_map.
    destruct (classifyTask_spec description); simpl; tauto.
  - apply classify_refines_spec.
  - intros [] [] H; try reflexivity; vm_compute in H; discriminate.
  - reflexivity.
Qed.

(** ** The store *)

Lemma insert_ok {R} (table : db -> list R) (key : R -> str)
    (store : list R -> db -> db) (row : R) (d : db) :
  ready d = true -> has_id key (key row) (table d) = false ->
  insert table key store row d = (Ok (key row), store (table d ++ [row]) d).
Proof. intros Hr Hid. unfold insert. now rewrite Hr, Hid. Qed.

Lemma insert_not_ready {R} (table : db -> list R) (key : R -> str)
    (store : list R -> db -> db) (row : R) (d : db) :
  ready d = false -> insert table key store row d = (Raise OperationalError, d).
Proof. intros Hr. unfold insert. now rewrite Hr. Qed.

Lemma has_id_app {R} (key : R -> str) (id : str) (t1 t2 : list R) :
  has_id key id (t1 ++ t2) = (has_id key id t1 || has_id key id t2)%bool.
Proof. apply existsb_app. Qed.

Lemma find_fresh_app {R} (key : R -> str) (id : str) (t : list R) (row : R) :
  has_id key id t = false -> key row = id ->
  find (fun r => str_eqb (key r) id) (t ++ [row]) = Some row.
Proof.
  intros Hid Hrow. induction t as [|r t IH]; simpl in *.
  - now rewrite Hrow, str_eqb_refl.
  - apply orb_false_iff in Hid as [Hr Ht]. rewrite Hr. auto.
Qed.

(** C9. On a store that is ready and holds no matching performance-metrics
    row (no row at all, or none of the session asked for) the summary counts
    zero requests, every other aggregate is NULL, and nothing is raised. An
    empty session id is no filter for the source, as [None] is not. *)
Theorem get_metrics_summary_no_rows (d : db) (session_id : option str) :
  ready d = true ->
  (performance_metrics d = [] \/
   exists sid, session_id = Some sid /\ sid <> [] /\
     forall m, In m (performance_metrics d) -> metrics_session_id m <> sid) ->
  get_metrics_summary session_id d =
  (Ok {| total_requests := 0%Z;
         avg_response_time := None;
         avg_success_rate := None;
         total_input_tokens := None;
         total_output_tokens := None;
         avg_quality_score := None |}, d).
Proof.
  intros Hr Hrows. unfold get_metrics_summary. rewrite Hr. simpl.
  assert (Hsel : selected_metrics session_id d = []).
  { destruct Hrows as [He|(sid & -> & Hne & Hno)].
    - unfold selected_metrics. rewrite He. destruct session_id as [[|? ?]|]; reflexivity.
    - unfold selected_metrics. destruct sid as [|c sid]; [congruence|].
      induction (performance_metrics d) as [|m t IH]; simpl; auto.
      destruct (str_eqb (metrics_session_id m) (c :: sid)) eqn:E.
      + apply str_eqb_eq in E. exfalso. apply (Hno m); simpl; auto.
      + apply IH. intros m' Hin. apply Hno. simpl. auto. }
  rewrite Hsel. reflexivity.
Qed.

(** ** The observer *)

Section ObserverFacts.
Context {U : Unicode}.

Lemma get_or_create_seen o d uuid sid agent task cid :
  dget (conversation_key sid agent (_classify_task task))
       (conversation_contexts o) = Some cid ->
  _get_or_create_conversation uuid sid agent task (o, d) = (Ok cid, (o, d)).
Proof.
  intro H. unfold _get_or_create_conversation, bind, self, dmem. simpl.
  rewrite H. simpl. rewrite H. reflexivity.
Qed.

Lemma get_or_create_new o d uuid sid agent task :
  dget (conversation_key sid agent (_classify_task task))
       (conversation_contexts o) = None ->
  ready d = true ->
  has_id conversation_id_of uuid (conversations d) = false ->
  _get_or_create_conversation uuid sid agent task (o, d) =
  (Ok uuid,
   (with_contexts o
      (dset (conversation_key sid agent (_classify_task task)) uuid
         (conversation_contexts o)),
    set_conversations
      (conversations d ++ [new_conversation uuid sid agent task]) d)).
Proof.
  intros H Hr Hid.
  unfold _get_or_create_conversation, bind, self, dmem, db_call,
    create_conversation, set_conversation_contexts. simpl.
  rewrite H. simpl.
  rewrite insert_ok by auto. simpl.
  rewrite dget_dset_same. reflexivity.
Qed.

(** Once the conversation is resolved, a ready store and new ids make the
    rest of [log_agent_interaction] go through: two messages, one metrics
    row, nothing else touched. *)
Lemma log_interaction_after o d o1 d1 uc uu ua um crew agent task input
    response t tok sid cid :
  truthy (_get_session_id o crew) = Some sid ->
  _get_or_create_conversation uc sid agent task (o, d) = (Ok cid, (o1, d1)) ->
  ready d1 = true ->
  has_id row_id uu (messages d1) = false ->
  has_id row_id ua (messages d1) = false ->
  uu <> ua ->
  has_id metrics_id um (performance_metrics d1) = false ->
  exists d',
    log_agent_interaction uc uu ua um crew agent task input response t tok (o, d)
    = (Ok tt, (o1, d')) /\
    ready d' = true /\
    agent_sessions d' = agent_sessions d1 /\
    conversations d' = conversations d1 /\
    messages d' = messages d1 ++
      [ {| row_conversation_id := cid;
           row_message := user_message uu agent task input |};
        {| row_conversation_id := cid;
           row_message := agent_message ua agent response t |} ] /\
    performance_metrics d' = performance_metrics d1 ++
      [ interaction_metrics um sid cid agent task t tok ] /\
    system_events d' = system_events d1.
Proof.
  intros Hsid Hgoc Hr Huu Hua Hne Hum.
  unfold log_agent_interaction. unfold bind at 1. unfold self at 1.
  cbv beta iota. cbn [fst]. rewrite Hsid.
  unfold bind at 1. rewrite Hgoc.
  unfold bind, db_call, add_message, add_metrics, ret. simpl.
  rewrite insert_ok; auto. simpl.
  rewrite insert_ok; simpl; auto.
  2:{ match goal with |- has_id _ ?x _ = _ => change x with ua end.
      rewrite has_id_app, Hua. simpl. unfold row_id. simpl.
      rewrite orb_false_r. apply str_eqb_neq. auto. }
  rewrite insert_ok; simpl; auto.
  eexists. split; [reflexivity|]. simpl.
  rewrite <- app_assoc. simpl. auto 10.
Qed.

End ObserverFacts.

(** C2. When the crew name resolves to no tracked session,
    [log_agent_interaction], [log_error] and [end_crew_session] return
    normally and leave the observer and every table as they were. *)
Theorem untracked_crew_is_noop {U : Unicode} (o : CrewAIObserver) (d : db)
    (crew : str) :
  _get_session_id o crew = None ->
  (forall uc uu ua um agent task input response t tok,
     log_agent_interaction uc uu ua um crew agent task input response t tok (o, d)
     = (Ok tt, (o, d))) /\
  (forall ue agent error context,
     log_error ue crew agent error context (o, d) = (Ok tt, (o, d))) /\
  (forall now ue success summary,
     end_crew_session now ue crew success summary (o, d) = (Ok tt, (o, d))).
Proof.
  intro H. repeat split; intros.
  - unfold log_agent_interaction, bind, self. cbn [fst]. rewrite H. reflexivity.
  - unfold log_error, bind, self. cbn [fst]. rewrite H. reflexivity.
  - unfold end_crew_session, bind, self. cbn [fst]. rewrite H. reflexivity.
Qed.

Lemma untracked_crew_is_noop_witness :
  (forall uc uu ua um agent task input response t tok,
     log_agent_interaction (U := ascii_tables) uc uu ua um (py "B") agent task
       input response t tok (tracking_A, empty_db)
     = (Ok tt, (tracking_A, empty_db))) /\
  (forall ue agent error context,
     log_error (U := ascii_tables) ue (py "B") agent error context
       (tracking_A, empty_db) = (Ok tt, (tracking_A, empty_db))) /\
  (forall now ue success summary,
     end_crew_session (U := ascii_tables) now ue (py "B") success summary
       (tracking_A, empty_db) = (Ok tt, (tracking_A, empty_db))).
Proof.
  apply (untracked_crew_is_noop (U := ascii_tables)). reflexivity.
Defined.

(** C4. On a tracked crew, with the store ready and the ids new,
    [log_agent_interaction] returns normally having appended exactly two
    message rows (a user message "Task: <sanitized task>\nInput: <sanitized
    input>" and an assistant message holding the sanitized response, both in
    the same conversation) and exactly one metrics row with the given
    execution time and a success rate of 1. *)
Theorem log_interaction_writes {U : Unicode} (o : CrewAIObserver) (d : db)
    (uc uu ua um crew agent task input response : str) (t : Q)
    (tok : option (dict Z)) (sid : str) :
  truthy (_get_session_id o crew) = Some sid ->
  ready d = true ->
  (dget (conversation_key sid agent (_classify_task task))
        (conversation_contexts o) = None ->
   has_id conversation_id_of uc (conversations d) = false) ->
  has_id row_id uu (messages d) = false ->
  has_id row_id ua (messages d) = false ->
  uu <> ua ->
  has_id metrics_id um (performance_metrics d) = false ->
  exists o' d' mu ma pm,
    log_agent_interaction uc uu ua um crew agent task input response t tok (o, d)
    = (Ok tt, (o', d')) /\
    messages d' = messages d ++ [mu; ma] /\
    row_conversation_id mu = row_conversation_id ma /\
    role (row_message mu) = MessageRole.USER /\
    content (row_message mu) =
      py "Task: " ++ _sanitize_task_description task ++ [10%N] ++
      py "Input: " ++ _sanitize_ehr_content input /\
    role (row_message ma) = MessageRole.ASSISTANT /\
    content (row_message ma) = _sanitize_ehr_content response /\
    performance_metrics d' = performance_metrics d ++ [pm] /\
    response_time_ms pm = t /\
    success_rate pm = (1#1)%Q.
Proof.
  intros Hsid Hr Hconv Huu Hua Hne Hum.
  destruct (dget (conversation_key sid agent (_classify_task task))
              (conversation_contexts o)) as [cid|] eqn:Hkey.
  - destruct (@log_interaction_after U o d o d uc uu ua um crew agent task input
                response t tok sid cid Hsid
                (@get_or_create_seen U o d uc sid agent task cid Hkey)
                Hr Huu Hua Hne Hum)
      as (d' & Hrun & _ & _ & _ & Hm & Hp & _).
    do 5 eexists. split; [exact Hrun|]. rewrite Hm, Hp.
    repeat split; reflexivity.
  - destruct (@log_interaction_after U o d _ _ uc uu ua um crew agent task input
                response t tok sid uc Hsid
                (@get_or_create_new U o d uc sid agent task Hkey Hr
                   (Hconv eq_refl))
                Hr Huu Hua Hne Hum)
      as (d' & Hrun & _ & _ & _ & Hm & Hp & _).
    do 5 eexists. split; [exact Hrun|]. rewrite Hm, Hp.
    repeat split; reflexivity.
Qed.

Lemma log_interaction_writes_witness :
  exists o' d' mu ma pm,
    log_agent_interaction (U := ascii_tables) (py "c-1") (py "m-1") (py "m-2")
      (py "p-1") (py "A") (py "Analyzer") (py "Analyze the chart")
      (py "SSN 123-45-6789") (py "ok") (5#1)%Q None (tracking_A, empty_db)
    = (Ok tt, (o', d')) /\
    messages d' = messages empty_db ++ [mu; ma] /\
    row_conversation_id mu = row_conversation_id ma /\
    role (row_message mu) = MessageRole.USER /\
    content (row_message mu) =
      py "Task: " ++
      _sanitize_task_description (U := ascii_tables) (py "Analyze the chart") ++
      [10%N] ++ py "Input: " ++
      _sanitize_ehr_content (U := ascii_tables) (py "SSN 123-45-6789") /\
    role (row_message ma) = MessageRole.ASSISTANT /\
    content (row_message ma) =
      _sanitize_ehr_content (U := ascii_tables) (py "ok") /\
    performance_metrics d' = performance_metrics empty_db ++ [pm] /\
    response_time_ms pm = (5#1)%Q /\
    success_rate pm = (1#1)%Q.
Proof.
  eapply (log_interaction_writes (U := ascii_tables)); try reflexivity.
  intro H. vm_compute in H. discriminate.
Defined.

(** C8, as amended. [log_error] has no handler of its own: it returns
    normally when the crew resolves to no tracked session and when the write
    of the event succeeds, and an exception raised by that write reaches the
    caller. *)
Theorem log_error_raises_what_the_store_raises {U : Unicode}
    (o : CrewAIObserver) (d : db) (ue crew agent : str) (error : py_exception)
    (context : option (dict value)) :
  fst (log_error ue crew agent error context (o, d)) =
  match truthy (_get_session_id o crew) with
  | None => Ok tt
  | Some sid =>
      match fst (add_event (error_event ue sid agent error context) d) with
      | Ok _ => Ok tt
      | Raise e => Raise e
      end
  end.
Proof.
  unfold log_error, bind, self. cbn [fst].
  destruct (truthy (_get_session_id o crew)) as [sid|]; [|reflexivity].
  unfold db_call. cbn [snd fst].
  destruct (add_event (error_event ue sid agent error context) d) as [[id|e] d'];
    reflexivity.
Qed.

(** C8 as stated fails: with the crew tracked and the store not ready, the
    [OperationalError] of the insert escapes [log_error]. *)
Lemma log_error_raises :
  ~ (forall (U : Unicode) (o : CrewAIObserver) (d : db) (ue crew agent : str)
       (error : py_exception) (context : option (dict value)),
       exists st, log_error ue crew agent error context (o, d) = (Ok tt, st)).
Proof.
  intro H.
  destruct (H ascii_tables tracking_A offline_db (py "e-1") (py "A")
              (py "Analyzer") boom None) as [st Hst].
  vm_compute in Hst. discriminate.
Qed.

(** ** Conversations across calls *)

Section ConversationFacts.
Context {U : Unicode}.

Lemma get_session_id_ext o o' crew :
  active_sessions o' = active_sessions o ->
  _get_session_id o' crew = _get_session_id o crew.
Proof. intro H. unfold _get_session_id. now rewrite H. Qed.

(** One successful call, with the conversation it used spelled out. *)
Lemma log_interaction_step o d uc uu ua um crew agent task input response t
    tok sid :
  truthy (_get_session_id o crew) = Some sid ->
  ready d = true ->
  (dget (conversation_key sid agent (_classify_task task))
        (conversation_contexts o) = None ->
   has_id conversation_id_of uc (conversations d) = false) ->
  has_id row_id uu (messages d) = false ->
  has_id row_id ua (messages d) = false ->
  uu <> ua ->
  has_id metrics_id um (performance_metrics d) = false ->
  let key := conversation_key sid agent (_classify_task task) in
  let cid := match dget key (conversation_contexts o) with
             | Some c => c | None => uc end in
  exists o1 d1,
    log_agent_interaction uc uu ua um crew agent task input response t tok (o, d)
    = (Ok tt, (o1, d1)) /\
    active_sessions o1 = active_sessions o /\
    dget key (conversation_contexts o1) = Some cid /\
    ready d1 = true /\
    conversations d1 =
      match dget key (conversation_contexts o) with
      | Some _ => conversations d
      | None => conversations d ++ [new_conversation uc sid agent task]
      end /\
    messages d1 = messages d ++
      [ {| row_conversation_id := cid;
           row_message := user_message uu agent task input |};
        {| row_conversation_id := cid;
           row_message := agent_message ua agent response t |} ] /\
    performance_metrics d1 = performance_metrics d ++
      [ interaction_metrics um sid cid agent task t tok ].
Proof.
  intros Hsid Hr Hconv Huu Hua Hne Hum key cid. subst key cid.
  destruct (dget (conversation_key sid agent (_classify_task task))
              (conversation_contexts o)) as [c|] eqn:Hkey.
  - destruct (@log_interaction_after U o d o d uc uu ua um crew agent task input
                response t tok sid c Hsid
                (@get_or_create_seen U o d uc sid agent task c Hkey)
                Hr Huu Hua Hne Hum)
      as (d' & Hrun & Hr' & _ & Hc & Hm & Hp & _).
    exists o, d'. auto 10.
  - destruct (@log_interaction_after U o d _ _ uc uu ua um crew agent task input
                response t tok sid uc Hsid
                (@get_or_create_new U o d uc sid agent task Hkey Hr
                   (Hconv eq_refl))
                Hr Huu Hua Hne Hum)
      as (d' & Hrun & Hr' & _ & Hc & Hm & Hp & _).
    do 2 eexists. split; [exact Hrun|]. simpl.
    rewrite dget_dset_same. auto 10.
Qed.

Lemma of_triple_new uc sid agent task :
  of_triple sid agent (_classify_task task)
    (new_conversation uc sid agent task) = true.
Proof.
  unfold of_triple, new_conversation. simpl.
  now rewrite !str_eqb_refl.
Qed.

Lemma split_at_first (x : char) (l1 l2 r1 r2 : str) :
  ~ In x l1 -> ~ In x l2 -> l1 ++ x :: r1 = l2 ++ x :: r2 ->
  l1 = l2 /\ r1 = r2.
Proof.
  revert l2. induction l1 as [|a l1 IH]; intros [|b l2] H1 H2 H; simpl in *.
  - injection H as <-. auto.
  - injection H as <- _. tauto.
  - injection H as -> _. tauto.
  - injection H as <- H. destruct (IH l2) as [-> ->]; auto.
Qed.

(** The key is one-to-one on triples whose session id holds no underscore,
    as the text of a uuid does not. *)
Lemma conversation_key_inj s1 a1 c1 s2 a2 c2 :
  ~ In (N_of_ascii "_") s1 -> ~ In (N_of_ascii "_") s2 ->
  conversation_key s1 a1 (category_name c1) =
  conversation_key s2 a2 (category_name c2) ->
  s1 = s2 /\ a1 = a2 /\ c1 = c2.
Proof.
  intros H1 H2 H. unfold conversation_key in H.
  change (py "_") with [N_of_ascii "_"] in H. simpl in H.
  apply split_at_first in H as [-> H]; auto.
  split; [reflexivity|].
  apply (f_equal (@rev char)) in H.
  rewrite !rev_app_distr in H. simpl in H. rewrite <- !app_assoc in H.
  simpl in H.
  assert (Hc : forall c, ~ In (N_of_ascii "_") (rev (category_name c))).
  { intros [] Hin; vm_compute in Hin;
      repeat (destruct Hin as [Hin|Hin]; [discriminate|]); exact Hin. }
  apply split_at_first in H as [Hcat Hag]; auto.
  apply (f_equal (@rev char)) in Hcat, Hag.
  rewrite !rev_involutive in Hcat, Hag. split; [exact Hag|].
  destruct c1, c2; try reflexivity; vm_compute in Hcat; discriminate.
Qed.

End ConversationFacts.

(** C3. Two interactions of the same crew session, the same agent and tasks
    of the same category, with the store ready and the ids new: the first
    creates a conversation row exactly when the key of the triple is not yet
    in [conversation_contexts]; the second creates none and files its two
    messages under the conversation id of the first; each call adds two
    messages; and where the triple had no conversation before, it has exactly
    one after either call. The key stands for one triple only, session ids
    being uuids. *)
Theorem conversation_reused {U : Unicode} (o : CrewAIObserver) (d : db)
    (crew agent sid : str)
    (uc1 uu1 ua1 um1 task1 input1 response1 : str) (t1 : Q) (tok1 : option (dict Z))
    (uc2 uu2 ua2 um2 task2 input2 response2 : str) (t2 : Q) (tok2 : option (dict Z)) :
  truthy (_get_session_id o crew) = Some sid ->
  ready d = true ->
  _classify_task task2 = _classify_task task1 ->
  (dget (conversation_key sid agent (_classify_task task1))
        (conversation_contexts o) = None ->
   has_id conversation_id_of uc1 (conversations d) = false) ->
  has_id row_id uu1 (messages d) = false ->
  has_id row_id ua1 (messages d) = false ->
  has_id row_id uu2 (messages d) = false ->
  has_id row_id ua2 (messages d) = false ->
  NoDup [uu1; ua1; uu2; ua2] ->
  has_id metrics_id um1 (performance_metrics d) = false ->
  has_id metrics_id um2 (performance_metrics d) = false ->
  um1 <> um2 ->
  let key := conversation_key sid agent (_classify_task task1) in
  let cid := match dget key (conversation_contexts o) with
             | Some c => c | None => uc1 end in
  exists o1 d1 o2 d2,
    log_agent_interaction uc1 uu1 ua1 um1 crew agent task1 input1 response1
      t1 tok1 (o, d) = (Ok tt, (o1, d1)) /\
    log_agent_interaction uc2 uu2 ua2 um2 crew agent task2 input2 response2
      t2 tok2 (o1, d1) = (Ok tt, (o2, d2)) /\
    conversations d1 =
      match dget key (conversation_contexts o) with
      | Some _ => conversations d
      | None => conversations d ++ [new_conversation uc1 sid agent task1]
      end /\
    conversations d2 = conversations d1 /\
    dget key (conversation_contexts o1) = Some cid /\
    dget key (conversation_contexts o2) = Some cid /\
    messages d1 = messages d ++
      [ {| row_conversation_id := cid;
           row_message := user_message uu1 agent task1 input1 |};
        {| row_conversation_id := cid;
           row_message := agent_message ua1 agent response1 t1 |} ] /\
    messages d2 = messages d1 ++
      [ {| row_conversation_id := cid;
           row_message := user_message uu2 agent task2 input2 |};
        {| row_conversation_id := cid;
           row_message := agent_message ua2 agent response2 t2 |} ] /\
    (dget key (conversation_contexts o) = None ->
     conversation_count sid agent (_classify_task task1) d = 0 ->
     conversation_count sid agent (_classify_task task1) d1 = 1 /\
     conversation_count sid agent (_classify_task task1) d2 = 1) /\
    (forall sid' agent' task',
       ~ In (N_of_ascii "_") sid -> ~ In (N_of_ascii "_") sid' ->
       conversation_key sid' agent' (_classify_task task') = key ->
       sid' = sid /\ agent' = agent /\ _classify_task task' = _classify_task task1).
Proof.
  intros Hsid Hr Hcat Hconv Huu1 Hua1 Huu2 Hua2 Hnd Hum1 Hum2 Hum key cid.
  assert (Hids : uu1 <> ua1 /\ uu1 <> uu2 /\ uu1 <> ua2 /\ ua1 <> uu2 /\
                 ua1 <> ua2 /\ uu2 <> ua2).
  { inversion Hnd as [|? ? Ha Hnd1]; subst.
    inversion Hnd1 as [|? ? Hb Hnd2]; subst.
    inversion Hnd2 as [|? ? Hc _]; subst. simpl in *.
    repeat split; intro; subst; tauto. }
  destruct Hids as (N12 & N13 & N14 & N23 & N24 & N34).
  destruct (@log_interaction_step U o d uc1 uu1 ua1 um1 crew agent task1 input1
              response1 t1 tok1 sid Hsid Hr Hconv Huu1 Hua1 N12 Hum1)
    as (o1 & d1 & Hrun1 & Hact1 & Hkey1 & Hr1 & Hc1 & Hm1 & Hp1).
  fold key in Hkey1, Hc1. fold cid in Hkey1, Hm1, Hp1.
  assert (Hsid1 : truthy (_get_session_id o1 crew) = Some sid).
  { unfold _get_session_id in *. rewrite Hact1. exact Hsid. }
  assert (Hkey1' : dget (conversation_key sid agent (_classify_task task2))
                     (conversation_contexts o1) = Some cid).
  { rewrite Hcat. exact Hkey1. }
  assert (Hf : forall x, has_id row_id x (messages d) = false ->
                 uu1 <> x -> ua1 <> x -> has_id row_id x (messages d1) = false).
  { intros x Hx Hx1 Hx2. rewrite Hm1, has_id_app, Hx. simpl. unfold row_id. simpl.
    apply str_eqb_neq in Hx1, Hx2. now rewrite Hx1, Hx2. }
  assert (Hum2' : has_id metrics_id um2 (performance_metrics d1) = false).
  { rewrite Hp1, has_id_app, Hum2. simpl.
    apply str_eqb_neq in Hum. now rewrite Hum. }
  destruct (@log_interaction_step U o1 d1 uc2 uu2 ua2 um2 crew agent task2 input2
              response2 t2 tok2 sid Hsid1 Hr1)
    as (o2 & d2 & Hrun2 & Hact2 & Hkey2 & Hr2 & Hc2 & Hm2 & Hp2); auto.
  { rewrite Hkey1'. discriminate. }
  rewrite Hkey1' in Hkey2, Hc2, Hm2.
  rewrite Hcat in Hkey2. fold key in Hkey2.
  exists o1, d1, o2, d2.
  split; [exact Hrun1|]. split; [exact Hrun2|]. split; [exact Hc1|].
  split; [exact Hc2|]. split; [exact Hkey1|]. split; [exact Hkey2|].
  split; [exact Hm1|]. split; [exact Hm2|]. split.
  - intros Hnone Hzero. unfold conversation_count in *.
    rewrite Hc2, Hc1, Hnone.
    rewrite filter_app, length_app, Hzero. simpl.
    rewrite of_triple_new. auto.
  - intros sid' agent' task' Hn Hn' Hk. unfold key in Hk.
    rewrite !classify_refines_spec in Hk.
    apply conversation_key_inj in Hk; auto.
    rewrite !classify_refines_spec.
    destruct Hk as (-> & -> & ->). auto.
Qed.

Lemma conversation_reused_witness :
  exists o1 d1 o2 d2,
    log_agent_interaction (U := ascii_tables) (py "c-1") (py "m-1") (py "m-2")
      (py "p-1") (py "A") (py "Analyzer") (py "Analyze the chart")
      (py "in") (py "out") (5#1)%Q None (tracking_A, empty_db)
    = (Ok tt, (o1, d1)) /\
    log_agent_interaction (U := ascii_tables) (py "c-2") (py "m-3") (py "m-4")
      (py "p-2") (py "A") (py "Analyzer") (py "Review the labs")
      (py "in") (py "out") (7#1)%Q None (o1, d1)
    = (Ok tt, (o2, d2)) /\
    conversations d2 = conversations d1 /\
    length (conversations d2) = 1 /\
    length (messages d2) = 4.
Proof.
  destruct (@conversation_reused ascii_tables tracking_A empty_db
              (py "A") (py "Analyzer") (py "s-1")
              (py "c-1") (py "m-1") (py "m-2") (py "p-1")
              (py "Analyze the chart") (py "in") (py "out") (5#1)%Q None
              (py "c-2") (py "m-3") (py "m-4") (py "p-2")
              (py "Review the labs") (py "in") (py "out") (7#1)%Q None)
    as (o1 & d1 & o2 & d2 & H1 & H2 & Hc1 & Hc2 & _ & _ & Hm1 & Hm2 & _);
    try reflexivity.
  - repeat constructor; simpl; intro H;
      repeat (destruct H as [H|H]; [vm_compute in H; discriminate|]); exact H.
  - intro H. vm_compute in H. discriminate.
  - exists o1, d1, o2, d2.
    split; [exact H1|]. split; [exact H2|]. split; [exact Hc2|].
    rewrite Hc2, Hc1, Hm2, Hm1. split; reflexivity.
Defined.

Lemma get_metrics_summary_no_rows_witness :
  get_metrics_summary None empty_db =
  (Ok {| total_requests := 0%Z;
         avg_response_time := None;
         avg_success_rate := None;
         total_input_tokens := None;
         total_output_tokens := None;
         avg_quality_score := None |}, empty_db).
Proof.
  apply get_metrics_summary_no_rows; [reflexivity | left; reflexivity].
Defined.

(** ** Starting a session *)

Lemma dget_dupdate_notin {V} (k : str) (other d : dict V) :
  ~ In k (map fst other) -> dget k (dupdate d other) = dget k d.
Proof.
  unfold dupdate. revert d.
  induction other as [|[k0 v0] other IH]; intros d Hk; simpl in *; auto.
  rewrite IH by tauto. apply dget_dset_other. intro; subst; tauto.
Qed.

Lemma dget_dupdate_in {V} (k : str) (v : V) (other d : dict V) :
  NoDup (map fst other) -> In (k, v) other ->
  dget k (dupdate d other) = Some v.
Proof.
  unfold dupdate. revert d.
  induction other as [|[k0 v0] other IH]; intros d Hnd Hin; simpl in *;
    [contradiction|].
  inversion Hnd as [|? ? Hk0 Hnd']; subst.
  destruct Hin as [Heq|Hin].
  - injection Heq as -> ->.
    fold (dupdate (dset k v d) other).
    rewrite dget_dupdate_notin by assumption. apply dget_dset_same.
  - apply IH; auto.
Qed.

Lemma provenance_keys {U : Unicode} o agents tasks :
  NoDup (map fst (provenance o agents tasks)).
Proof.
  unfold provenance. simpl.
  repeat constructor; simpl; intro H;
    repeat (destruct H as [H|H]; [vm_compute in H; discriminate|]); exact H.
Qed.

(** C10. With the store ready and the two ids new, [start_crew_session]
    returns the session id and persists a session whose metadata is the
    sanitized caller metadata updated with the provenance block: each of the
    keys project, agent_count, task_count, agents, data_type and
    privacy_level holds the value of the block whatever the caller supplied
    under it, "agents" holds the agent names as they were given, and every
    other key holds its sanitized value. *)
Theorem start_session_provenance {U : Unicode} (o : CrewAIObserver) (d : db)
    (now : Z) (us ue crew : str) (agents tasks : list str)
    (meta : option (dict value)) :
  ready d = true ->
  has_id session_id_of us (agent_sessions d) = false ->
  has_id event_id ue (system_events d) = false ->
  exists o' d' session,
    start_crew_session now us ue crew agents tasks meta (o, d)
    = (Ok us, (o', d')) /\
    find (fun r => str_eqb (session_id_of r) us) (agent_sessions d')
    = Some session /\
    (forall k v, In (k, v) (provenance o agents tasks) ->
       dget k (metadata session) = Some v) /\
    dget (py "agents") (metadata session) = Some (VList (map VStr agents)) /\
    (forall k, ~ In k (map fst (provenance o agents tasks)) ->
       dget k (metadata session) =
       dget k (_sanitize_metadata (match meta with Some m => m | None => [] end))).
Proof.
  intros Hr Hus Hue.
  unfold start_crew_session, bind, self, db_call, create_session,
    set_active_sessions, _log_event, add_event, ret. cbn [fst snd].
  rewrite insert_ok by auto. cbn [fst snd].
  unfold db_call. cbn [fst snd].
  rewrite insert_ok by auto. cbn [fst snd].
  do 3 eexists. split; [reflexivity|]. split.
  - cbn [agent_sessions set_events set_sessions].
    apply find_fresh_app; auto.
  - cbn [metadata]. split; [|split].
    + intros k v Hin. apply dget_dupdate_in; auto. apply provenance_keys.
    + apply dget_dupdate_in; [apply provenance_keys|].
      unfold provenance. simpl. auto.
    + intros k Hk. now apply dget_dupdate_notin.
Qed.

Lemma start_session_provenance_witness :
  exists o' d' session,
    start_crew_session (U := ascii_tables) 1000 (py "s-1") (py "e-1") (py "A")
      [py "John Smith"] [py "Analyze"]
      (Some [(py "agents", VStr (py "mine")); (py "note", VStr (py "x"))])
      (new_observer (py "EHR"), empty_db)
    = (Ok (py "s-1"), (o', d')) /\
    find (fun r => str_eqb (session_id_of r) (py "s-1")) (agent_sessions d')
    = Some session /\
    (forall k v,
       In (k, v) (provenance (new_observer (py "EHR")) [py "John Smith"]
                    [py "Analyze"]) ->
       dget k (metadata session) = Some v) /\
    dget (py "agents") (metadata session)
    = Some (VList (map VStr [py "John Smith"])) /\
    (forall k,
       ~ In k (map fst (provenance (new_observer (py "EHR")) [py "John Smith"]
                          [py "Analyze"])) ->
       dget k (metadata session) =
       dget k (_sanitize_metadata (U := ascii_tables)
                 [(py "agents", VStr (py "mine")); (py "note", VStr (py "x"))])).
Proof.
  apply (start_session_provenance (U := ascii_tables)); reflexivity.
Defined.

(** ** Ending a session *)

Lemma ddel_absent {V} (k : str) (d : dict V) : dget k d = None -> ddel k d = d.
Proof.
  induction d as [|[k' v'] d IH]; simpl; auto.
  destruct (str_eqb k k'); [discriminate|]. intro H. now rewrite IH.
Qed.

(** What [end_crew_session] does to a tracked crew when its two storage calls
    succeed: one completion event, and the key built from the clock at the
    time of the call is the one deleted, if it is there. *)
Lemma end_session_tracked {U : Unicode} (o : CrewAIObserver) (d : db)
    (now : Z) (ue crew : str) (success : bool) (summary sid : str) :
  truthy (_get_session_id o crew) = Some sid ->
  ready d = true ->
  has_id event_id ue (system_events d) = false ->
  exists o' d',
    end_crew_session now ue crew success summary (o, d) = (Ok tt, (o', d')) /\
    active_sessions o' = ddel (crew_id_of crew now) (active_sessions o) /\
    length (system_events d') = S (length (system_events d)).
Proof.
  intros Hsid Hr Hue.
  unfold end_crew_session, bind, self. cbn [fst]. rewrite Hsid.
  unfold db_call, get_session, _log_event. cbn [fst snd]. rewrite Hr. simpl.
  unfold db_call, add_event. cbn [fst snd].
  rewrite insert_ok by auto. cbn [fst snd]. unfold dmem.
  destruct (dget (crew_id_of crew now) (active_sessions o)) eqn:E.
  - do 2 eexists. split; [reflexivity|]. simpl.
    rewrite length_app. simpl. split; [reflexivity | lia].
  - do 2 eexists. split; [reflexivity|]. simpl.
    rewrite length_app, ddel_absent by assumption. simpl.
    split; [reflexivity | lia].
Qed.

(** C1, on the source as it is. The key to delete is rebuilt from the clock
    at the time of the call, so it is the tracked key only within the second
    the session was started in. Ended one second later, the crew stays
    tracked and a second [end_crew_session] writes a second completion
    event. *)
Theorem end_session_a_second_later :
  _get_session_id (fst started) (py "A") = Some (py "s-1") /\
  active_sessions (fst ended_once) = [(py "crew_A_1000", py "s-1")] /\
  _get_session_id (fst ended_once) (py "A") = Some (py "s-1") /\
  fst ended_twice = Ok tt /\
  map message (system_events (snd (snd ended_twice))) =
    [py "Started CrewAI session: A";
     py "Completed CrewAI session: A";
     py "Completed CrewAI session: A"].
Proof. vm_compute. repeat split; reflexivity. Qed.

(** Ended within the second it was started in, the crew is untracked, and a
    second [end_crew_session] writes nothing. *)
Lemma end_session_same_second :
  active_sessions (fst ended_at_once) = [] /\
  ended_at_once_twice = (Ok tt, ended_at_once) /\
  map message (system_events (snd ended_at_once)) =
    [py "Started CrewAI session: A"; py "Completed CrewAI session: A"].
Proof. vm_compute. repeat split; reflexivity. Qed.

(* ================================================================== *)
(** * Part III: further properties of the code *)
(* ================================================================== *)

(** ** The sanitizer: bounds, pass-through, the other patterns *)

Section SanitizerMore.
Context {U : Unicode}.

Lemma Occ_has_match r (Hr : edged r) s :
  forall pw, Occ r pw s -> has_match r pw s = true.
Proof.
  assert (Hpos : forall pw s0, occ_here r pw s0 ->
                   exists n, m_atoms r pw s0 = Some (S n)).
  { intros pw s0 H. destruct (occ_m_atoms H) as [[|n] Hn]; [|eauto].
    destruct (m_atoms_sound _ _ _ Hn) as (w & rest & _ & Hlen & Hm).
    destruct Hr as [Hr1 _]. destruct (Hr1 _ _ _ Hm) as (Hne & _).
    destruct w; [congruence | discriminate]. }
  induction s as [|c s IH]; intros pw H; simpl in *.
  - destruct H as [H|[]]. destruct (Hpos _ _ H) as [n ->]. reflexivity.
  - destruct H as [H|H].
    + destruct (Hpos _ _ H) as [n ->]. reflexivity.
    + destruct (m_atoms r pw (c :: s)) as [[|n]|]; auto.
Qed.

Lemma no_match_no_Occ r (Hr : edged r) s :
  re_search r s = false -> ~ Occ r false s.
Proof.
  intros H Hocc. apply (Occ_has_match Hr) in Hocc.
  unfold re_search in H. congruence.
Qed.

End SanitizerMore.

(** X1. The output of [_sanitize_ehr_content] never has more than 514
    characters (500 and the marker), has exactly 514 whenever the redacted
    text exceeds 500 and then ends in the marker; the output of
    [_sanitize_task_description] never has more than 200. *)
Theorem sanitizer_length_bounds {U : Unicode} (x : str) :
  length (_sanitize_ehr_content x) <= 514 /\
  (500 < length (redact x) ->
   length (_sanitize_ehr_content x) = 514 /\
   _sanitize_ehr_content x = firstn 500 (redact x) ++ py "...[TRUNCATED]") /\
  length (_sanitize_task_description x) <= 200.
Proof.
  assert (Hcut : forall y : str, 500 < length y ->
            length (slice_to 500 y ++ py "...[TRUNCATED]") = 514).
  { intros y Hy. unfold slice_to. rewrite length_app, length_firstn.
    change (length (py "...[TRUNCATED]")) with 14. lia. }
  split; [|split].
  - destruct x as [|c x]; [simpl; lia|]. unfold _sanitize_ehr_content.
    destruct (Nat.ltb_spec 500 (length (redact (c :: x)))) as [H|H].
    + rewrite Hcut by assumption. lia.
    + lia.
  - intro H. destruct x as [|c x]; [simpl in H; lia|].
    unfold _sanitize_ehr_content.
    destruct (Nat.ltb_spec 500 (length (redact (c :: x)))) as [H'|H']; [|lia].
    split; [now apply Hcut | reflexivity].
  - unfold _sanitize_task_description, slice_to. apply firstn_le_length.
Qed.

(** X2. A text of at most 500 characters in which none of the six patterns
    matches comes out of [_sanitize_ehr_content] unchanged. *)
Theorem sanitize_passes_clean_text {U : Unicode} (x : str) :
  length x <= 500 ->
  re_search ssn_re x = false -> re_search mrn_re x = false ->
  re_search date_re x = false -> re_search name_re x = false ->
  re_search phone_re x = false -> re_search email_re x = false ->
  _sanitize_ehr_content x = x.
Proof.
  intros Hlen H1 H2 H3 H4 H5 H6.
  assert (Hred : redact x = x).
  { assert (E : forall r repl, edged r -> re_search r x = false ->
                 re_sub r repl x = x).
    { intros r repl Hr H. apply re_sub_id. now apply no_match_no_Occ. }
    unfold redact.
    rewrite (E ssn_re), (E mrn_re), (E date_re), (E name_re), (E phone_re),
      (E email_re); auto using ssn_edged, mrn_edged, date_edged, name_edged,
      phone_edged, email_edged. }
  destruct x as [|c x]; [reflexivity|].
  rewrite sanitize_short.
  - exact Hred.
  - rewrite Hred. exact Hlen.
  - discriminate.
Qed.

Lemma sanitize_passes_clean_text_witness :
  _sanitize_ehr_content (U := ascii_tables)
    (py "Patient presents with chest pain, history of hypertension...") =
  py "Patient presents with chest pain, history of hypertension...".
Proof.
  apply (sanitize_passes_clean_text (U := ascii_tables));
    try reflexivity.
  apply Nat.leb_le. reflexivity.
Defined.

(** X3. When nothing is cut, the output of [_sanitize_ehr_content] holds no
    match of the record-number, date, name or phone pattern either. *)
Theorem sanitize_leaves_no_other_match {U : Unicode} (x : str) :
  length (redact x) <= 500 ->
  re_search mrn_re (_sanitize_ehr_content x) = false /\
  re_search date_re (_sanitize_ehr_content x) = false /\
  re_search name_re (_sanitize_ehr_content x) = false /\
  re_search phone_re (_sanitize_ehr_content x) = false.
Proof.
  intro Hlen. unfold re_search.
  destruct x as [|c x]; [repeat split; reflexivity|].
  rewrite (sanitize_short Hlen) by discriminate.
  repeat split; apply no_Occ_has_match.
  - apply redact_no_mrn.
  - apply redact_no_date.
  - apply redact_no_name.
  - apply redact_no_phone.
Qed.

Lemma sanitize_leaves_no_other_match_witness :
  re_search (U := ascii_tables) (mrn_re (U := ascii_tables))
    (_sanitize_ehr_content (U := ascii_tables)
       (py "MRN 1234567890, seen 1/2/1990 by John Smith, 555-123-4567")) = false /\
  re_search (U := ascii_tables) (date_re (U := ascii_tables))
    (_sanitize_ehr_content (U := ascii_tables)
       (py "MRN 1234567890, seen 1/2/1990 by John Smith, 555-123-4567")) = false /\
  re_search (U := ascii_tables) (name_re (U := ascii_tables))
    (_sanitize_ehr_content (U := ascii_tables)
       (py "MRN 1234567890, seen 1/2/1990 by John Smith, 555-123-4567")) = false /\
  re_search (U := ascii_tables) (phone_re (U := ascii_tables))
    (_sanitize_ehr_content (U := ascii_tables)
       (py "MRN 1234567890, seen 1/2/1990 by John Smith, 555-123-4567")) = false.
Proof.
  apply (sanitize_leaves_no_other_match (U := ascii_tables)).
  apply Nat.leb_le. vm_compute. reflexivity.
Defined.

(** ** [_sanitize_metadata] *)

Lemma dset_fresh {V} (k : str) (v : V) (d : dict V) :
  ~ In k (map fst d) -> dset k v d = d ++ [(k, v)].
Proof.
  induction d as [|[k' v'] d IH]; simpl; intro H; [reflexivity|].
  destruct (str_eqb k k') eqn:E.
  - apply str_eqb_eq in E. subst. tauto.
  - rewrite IH by tauto. reflexivity.
Qed.

Lemma dget_not_in {V} (k : str) (d : dict V) :
  ~ In k (map fst d) -> dget k d = None.
Proof.
  induction d as [|[k' v'] d IH]; simpl; intro H; [reflexivity|].
  destruct (str_eqb k k') eqn:E; [|apply IH; tauto].
  apply str_eqb_eq in E. subst. tauto.
Qed.

Lemma dget_in_keys {V} (k : str) (v : V) (d : dict V) :
  dget k d = Some v -> In k (map fst d).
Proof.
  induction d as [|[k' v'] d IH]; simpl; intro H; [discriminate|].
  destruct (str_eqb k k') eqn:E; [|right; auto].
  apply str_eqb_eq in E. auto.
Qed.

Section MetadataFacts.
Context {U : Unicode}.

Lemma sanitize_metadata_from (m : dict value) :
  forall acc, NoDup (map fst m) ->
  (forall k, In k (map fst m) -> ~ In k (map fst acc)) ->
  fold_left (fun safe kv => dset (fst kv) (sanitize_entry (fst kv) (snd kv)) safe)
    m acc = acc ++ map sanitize_item m.
Proof.
  induction m as [|[k v] m IH]; intros acc Hnd Hdis; simpl.
  - now rewrite app_nil_r.
  - inversion Hnd as [|? ? Hk Hnd']; subst.
    rewrite dset_fresh by (apply Hdis; simpl; auto).
    rewrite IH; auto.
    + rewrite <- app_assoc. reflexivity.
    + intros k' Hin. rewrite map_app, in_app_iff. simpl.
      intros [H|[H|[]]].
      * eapply Hdis; eauto. simpl. auto.
      * subst. contradiction.
Qed.

Lemma dget_sanitized (k : str) (m : dict value) :
  dget k (map sanitize_item m) = option_map (sanitize_entry k) (dget k m).
Proof.
  induction m as [|[k' v'] m IH]; simpl; [reflexivity|].
  destruct (str_eqb k k') eqn:E; [|exact IH].
  apply str_eqb_eq in E. subst. reflexivity.
Qed.

End MetadataFacts.

(** X4. On a dict (keys all different) [_sanitize_metadata] returns a dict
    with the same keys in the same order, each value dealt with on its own:
    replaced by "[REDACTED]" under a denylisted key, sanitized if it is a
    string, kept otherwise. *)
Theorem sanitize_metadata_entrywise {U : Unicode} (m : dict value) :
  NoDup (map fst m) ->
  _sanitize_metadata m =
    map (fun kv => (fst kv, sanitize_entry (fst kv) (snd kv))) m /\
  map fst (_sanitize_metadata m) = map fst m.
Proof.
  intro Hnd. unfold _sanitize_metadata.
  rewrite sanitize_metadata_from; auto. simpl. split; [reflexivity|].
  unfold sanitize_item. rewrite map_map. simpl. reflexivity.
Qed.

Lemma sanitize_metadata_entrywise_witness :
  _sanitize_metadata (U := ascii_tables)
    [(py "hospital", VStr (py "General Hospital"));
     (py "patient_cohort_size", VInt 150)] =
    map (fun kv => (fst kv, sanitize_entry (U := ascii_tables) (fst kv) (snd kv)))
      [(py "hospital", VStr (py "General Hospital"));
       (py "patient_cohort_size", VInt 150)] /\
  map fst (_sanitize_metadata (U := ascii_tables)
             [(py "hospital", VStr (py "General Hospital"));
              (py "patient_cohort_size", VInt 150)]) =
  map fst [(py "hospital", VStr (py "General Hospital"));
           (py "patient_cohort_size", VInt 150)].
Proof.
  apply (sanitize_metadata_entrywise (U := ascii_tables)).
  repeat constructor; simpl; intro H;
    repeat (destruct H as [H|H]; [vm_compute in H; discriminate|]); exact H.
Defined.

(** X5. What [_sanitize_metadata] stores under a key of the input dict: under
    a key whose lower-cased form is patient_id, ssn, name, email or phone,
    "[REDACTED]" whatever the value was; under another key a string is
    sanitized and a value that is no string (a number, a list, a nested dict)
    is stored as it is, whatever it holds. *)
Theorem sanitize_metadata_lookup {U : Unicode} (m : dict value) (k : str)
    (v : value) :
  NoDup (map fst m) ->
  dget k m = Some v ->
  (existsb (str_eqb (lower k)) denylist = true ->
   dget k (_sanitize_metadata m) = Some (VStr (py "[REDACTED]"))) /\
  (existsb (str_eqb (lower k)) denylist = false ->
   forall s, v = VStr s ->
   dget k (_sanitize_metadata m) = Some (VStr (_sanitize_ehr_content s))) /\
  (existsb (str_eqb (lower k)) denylist = false ->
   (forall s, v <> VStr s) ->
   dget k (_sanitize_metadata m) = Some v).
Proof.
  intros Hnd Hk. unfold _sanitize_metadata.
  rewrite sanitize_metadata_from; auto. rewrite app_nil_l.
  rewrite dget_sanitized, Hk. cbn [option_map]. unfold sanitize_entry.
  repeat split; intro Hd; rewrite Hd.
  - reflexivity.
  - intros s ->. reflexivity.
  - intro Hs. destruct v; try reflexivity. exfalso. eapply Hs; eauto.
Qed.

Lemma sanitize_metadata_lookup_witness :
  (existsb (str_eqb (lower (U := ascii_tables) (py "history"))) denylist = true ->
   dget (py "history")
     (_sanitize_metadata (U := ascii_tables)
        [(py "SSN", VInt 123456789);
         (py "history", VDict [(py "ssn", VStr (py "123-45-6789"))])])
   = Some (VStr (py "[REDACTED]"))) /\
  (existsb (str_eqb (lower (U := ascii_tables) (py "history"))) denylist = false ->
   forall s, VDict [(py "ssn", VStr (py "123-45-6789"))] = VStr s ->
   dget (py "history")
     (_sanitize_metadata (U := ascii_tables)
        [(py "SSN", VInt 123456789);
         (py "history", VDict [(py "ssn", VStr (py "123-45-6789"))])])
   = Some (VStr (_sanitize_ehr_content (U := ascii_tables) s))) /\
  (existsb (str_eqb (lower (U := ascii_tables) (py "history"))) denylist = false ->
   (forall s, VDict [(py "ssn", VStr (py "123-45-6789"))] <> VStr s) ->
   dget (py "history")
     (_sanitize_metadata (U := ascii_tables)
        [(py "SSN", VInt 123456789);
         (py "history", VDict [(py "ssn", VStr (py "123-45-6789"))])])
   = Some (VDict [(py "ssn", VStr (py "123-45-6789"))])).
Proof.
  apply (sanitize_metadata_lookup (U := ascii_tables)).
  - repeat constructor; simpl; intro H;
      repeat (destruct H as [H|H]; [vm_compute in H; discriminate|]); exact H.
  - reflexivity.
Defined.

(** ** The store: inserts and lookups *)

Lemma insert_cases {R} (table : db -> list R) (key : R -> str)
    (store : list R -> db -> db) (row : R) (d : db) :
  (ready d = true /\ has_id key (key row) (table d) = false /\
   insert table key store row d = (Ok (key row), store (table d ++ [row]) d)) \/
  (ready d = true /\ has_id key (key row) (table d) = true /\
   insert table key store row d = (Raise IntegrityError, d)) \/
  (ready d = false /\
   insert table key store row d = (Raise OperationalError, d)).
Proof.
  unfold insert. destruct (ready d); simpl; [|auto].
  destruct (has_id key (key row) (table d)); auto.
Qed.

Lemma extends_refl {R} (l : list R) : extends l l.
Proof. exists []. now rewrite app_nil_r. Qed.

Lemma extends_app {R} (l l' : list R) : extends l (l ++ l').
Proof. now exists l'. Qed.

Lemma extends_trans {R} (a b c : list R) :
  extends a b -> extends b c -> extends a c.
Proof. intros [l ->] [l' ->]. exists (l ++ l'). now rewrite app_assoc. Qed.

Lemma append_only_refl d : append_only d d.
Proof. unfold append_only. auto 10 using extends_refl. Qed.

Lemma append_only_trans a b c :
  append_only a b -> append_only b c -> append_only a c.
Proof.
  unfold append_only. intros (Hr & H1 & H2 & H3 & H4 & H5)
    (Hr' & H1' & H2' & H3' & H4' & H5').
  repeat split; try congruence; eapply extends_trans; eauto.
Qed.

Create HintDb store.
#[local] Hint Resolve extends_refl extends_app append_only_refl : store.

Lemma create_session_append_only s d :
  append_only d (snd (create_session s d)).
Proof.
  unfold create_session.
  destruct (insert_cases agent_sessions session_id_of set_sessions s d)
    as [(_ & _ & ->)|[(_ & _ & ->)|(_ & ->)]]; simpl; auto with store.
  unfold append_only. simpl. auto 10 with store.
Qed.

Lemma create_conversation_append_only c d :
  append_only d (snd (create_conversation c d)).
Proof.
  unfold create_conversation.
  destruct (insert_cases conversations conversation_id_of set_conversations c d)
    as [(_ & _ & ->)|[(_ & _ & ->)|(_ & ->)]]; simpl; auto with store.
  unfold append_only. simpl. auto 10 with store.
Qed.

Lemma add_message_append_only m c d :
  append_only d (snd (add_message m c d)).
Proof.
  unfold add_message.
  match goal with |- context [insert ?t ?k ?st ?row d] =>
    destruct (insert_cases t k st row d)
      as [(_ & _ & ->)|[(_ & _ & ->)|(_ & ->)]] end; simpl; auto with store.
  unfold append_only. simpl. auto 10 with store.
Qed.

Lemma add_metrics_append_only m d :
  append_only d (snd (add_metrics m d)).
Proof.
  unfold add_metrics.
  destruct (insert_cases performance_metrics metrics_id set_metrics m d)
    as [(_ & _ & ->)|[(_ & _ & ->)|(_ & ->)]]; simpl; auto with store.
  unfold append_only. simpl. auto 10 with store.
Qed.

Lemma add_event_append_only e d :
  append_only d (snd (add_event e d)).
Proof.
  unfold add_event.
  destruct (insert_cases system_events event_id set_events e d)
    as [(_ & _ & ->)|[(_ & _ & ->)|(_ & ->)]]; simpl; auto with store.
  unfold append_only. simpl. auto 10 with store.
Qed.

Lemma find_absent {R} (key : R -> str) (id : str) (t : list R) :
  has_id key id t = false -> find (fun r => str_eqb (key r) id) t = None.
Proof.
  induction t as [|r t IH]; simpl; auto. intro H.
  apply orb_false_iff in H as [Hr Ht]. rewrite Hr. auto.
Qed.

Lemma find_app_other {R} (key : R -> str) (id : str) (t : list R) (row : R) :
  key row <> id ->
  find (fun r => str_eqb (key r) id) (t ++ [row]) =
  find (fun r => str_eqb (key r) id) t.
Proof.
  intro Hne. induction t as [|r t IH]; simpl.
  - apply str_eqb_neq in Hne. now rewrite Hne.
  - destruct (str_eqb (key r) id); auto.
Qed.

(** X6. A session created under a new id is what [get_session] returns for
    that id afterwards; before, the lookup gave [None] and no error; lookups
    of other ids are not affected. *)
Theorem create_then_get_session (s : AgentSession) (d : db) :
  ready d = true ->
  has_id session_id_of (session_id_of s) (agent_sessions d) = false ->
  get_session (session_id_of s) d = (Ok None, d) /\
  exists d',
    create_session s d = (Ok (session_id_of s), d') /\
    get_session (session_id_of s) d' = (Ok (Some s), d') /\
    (forall id, id <> session_id_of s ->
       fst (get_session id d') = fst (get_session id d)).
Proof.
  intros Hr Hid. split.
  - unfold get_session. rewrite Hr. simpl.
    now rewrite (find_absent session_id_of _ _ Hid).
  - unfold create_session. rewrite insert_ok by auto.
    eexists. split; [reflexivity|]. unfold get_session. simpl. rewrite Hr.
    simpl. split.
    + now rewrite (find_fresh_app session_id_of _ s Hid eq_refl).
    + intros id Hne. f_equal. apply find_app_other. congruence.
Qed.

Lemma create_then_get_session_witness :
  get_session (session_id_of session_A) empty_db = (Ok None, empty_db) /\
  exists d',
    create_session session_A empty_db = (Ok (session_id_of session_A), d') /\
    get_session (session_id_of session_A) d' = (Ok (Some session_A), d') /\
    (forall id, id <> session_id_of session_A ->
       fst (get_session id d') = fst (get_session id empty_db)).
Proof. apply create_then_get_session; reflexivity. Defined.

(** X7. Each of the five inserts either succeeds, on a ready store and a new
    id, returning the id, or raises and leaves the store exactly as it was:
    [IntegrityError] when the id is taken, [OperationalError] when the store
    is not ready. *)
Theorem failed_insert_changes_nothing (d : db) :
  (forall s, insert_outcome d session_id_of agent_sessions s
               (create_session s d)) /\
  (forall c, insert_outcome d conversation_id_of conversations c
               (create_conversation c d)) /\
  (forall m c, insert_outcome d row_id messages
                 {| row_conversation_id := c; row_message := m |}
                 (add_message m c d)) /\
  (forall m, insert_outcome d metrics_id performance_metrics m
               (add_metrics m d)) /\
  (forall e, insert_outcome d event_id system_events e (add_event e d)).
Proof.
  assert (H : forall R (table : db -> list R) (key : R -> str) store row,
    insert_outcome d key table row (insert table key store row d)).
  { intros R table key store row. unfold insert_outcome.
    destruct (insert_cases table key store row d)
      as [(Hr & Hid & ->)|[(Hr & Hid & ->)|(Hr & ->)]]; simpl; rewrite ?Hr; auto.
    repeat split; auto. discriminate. }
  repeat split; intros; apply H.
Qed.

(** X8. After a session is created under a new id, [get_active_sessions]
    returns the sessions it returned before and, if its status is active, the
    new one; it returns only sessions whose status is active; the count of
    the dashboard moves accordingly. *)
Theorem create_then_get_active_sessions (s : AgentSession) (d : db) :
  ready d = true ->
  has_id session_id_of (session_id_of s) (agent_sessions d) = false ->
  exists d' before after,
    create_session s d = (Ok (session_id_of s), d') /\
    get_active_sessions d = (Ok before, d) /\
    get_active_sessions d' = (Ok after, d') /\
    (forall r, In r after <->
               In r before \/ (r = s /\ status s = AgentStatus.ACTIVE)) /\
    get_active_sessions_count d' =
      (Ok (length before + if is_active s then 1 else 0), d') /\
    Forall (fun r => status r = AgentStatus.ACTIVE) after.
Proof.
  intros Hr Hid. unfold create_session. rewrite insert_ok by auto.
  do 3 eexists. split; [reflexivity|].
  unfold get_active_sessions_count, get_active_sessions. simpl. rewrite Hr. simpl.
  split; [reflexivity|]. split; [reflexivity|].
  assert (Hact : forall r, is_active r = true <-> status r = AgentStatus.ACTIVE).
  { intro r. unfold is_active. destruct (status r); split; congruence. }
  rewrite filter_app. simpl. split; [|split].
  - intro r. rewrite in_app_iff. destruct (is_active s) eqn:E; simpl.
    + apply Hact in E. intuition (subst; auto).
    + intuition. subst. apply Hact in H1. congruence.
  - rewrite length_app. destruct (is_active s); reflexivity.
  - apply Forall_forall. intros r Hin. apply Hact.
    apply in_app_iff in Hin as [Hin|Hin].
    + apply filter_In in Hin. tauto.
    + destruct (is_active s) eqn:E; simpl in Hin; [|contradiction].
      destruct Hin as [<-|[]]. exact E.
Qed.

Lemma create_then_get_active_sessions_witness :
  exists d' before after,
    create_session session_A empty_db = (Ok (session_id_of session_A), d') /\
    get_active_sessions empty_db = (Ok before, empty_db) /\
    get_active_sessions d' = (Ok after, d') /\
    (forall r, In r after <->
               In r before \/
               (r = session_A /\ status session_A = AgentStatus.ACTIVE)) /\
    get_active_sessions_count d' =
      (Ok (length before + if is_active session_A then 1 else 0), d') /\
    Forall (fun r => status r = AgentStatus.ACTIVE) after.
Proof. apply create_then_get_active_sessions; reflexivity. Defined.

Lemma sum_snoc (l : list Z) (x : Z) :
  fold_right Z.add 0%Z (l ++ [x]) = (fold_right Z.add 0%Z l + x)%Z.
Proof. induction l as [|a l IH]; simpl; lia. Qed.

Lemma sql_sum_snoc (l : list Z) (x : Z) :
  sql_sum (l ++ [x]) =
  Some (match sql_sum l with Some t => t | None => 0%Z end + x)%Z.
Proof.
  destruct l as [|a l]; [simpl; f_equal; lia|].
  unfold sql_sum. rewrite <- app_comm_cons. f_equal.
  rewrite app_comm_cons, sum_snoc. reflexivity.
Qed.

(** X9. After a metrics row is added under a new id, the unfiltered summary
    counts one request more and its token totals grow by the tokens of the
    row (a total that was NULL counting as zero); the summary of a session
    counts one more if the row belongs to that session and is unchanged in
    its count otherwise. *)
Theorem add_metrics_then_summary (m : PerformanceMetrics) (d : db) :
  ready d = true ->
  has_id metrics_id (metrics_id m) (performance_metrics d) = false ->
  exists d' s s',
    add_metrics m d = (Ok (metrics_id m), d') /\
    get_metrics_summary None d = (Ok s, d) /\
    get_metrics_summary None d' = (Ok s', d') /\
    total_requests s' = (total_requests s + 1)%Z /\
    total_input_tokens s' =
      Some (match total_input_tokens s with Some t => t | None => 0 end
            + token_count_input m)%Z /\
    total_output_tokens s' =
      Some (match total_output_tokens s with Some t => t | None => 0 end
            + token_count_output m)%Z /\
    (forall sid t t', sid <> [] ->
       get_metrics_summary (Some sid) d = (Ok t, d) ->
       get_metrics_summary (Some sid) d' = (Ok t', d') ->
       total_requests t' =
         (total_requests t +
          if str_eqb (metrics_session_id m) sid then 1 else 0)%Z).
Proof.
  intros Hr Hid. unfold add_metrics. rewrite insert_ok by auto.
  do 3 eexists. split; [reflexivity|].
  unfold get_metrics_summary. simpl. rewrite Hr. simpl.
  split; [reflexivity|]. split; [reflexivity|]. simpl.
  rewrite length_app, !map_app. simpl. rewrite !sql_sum_snoc.
  split; [lia|]. split; [reflexivity|]. split; [reflexivity|].
  intros [|c sid] t t' Hne Ht Ht'; [congruence|].
  injection Ht as <-. injection Ht' as <-. simpl.
  rewrite filter_app, length_app. simpl.
  destruct (str_eqb (metrics_session_id m) (c :: sid)); simpl; lia.
Qed.

Lemma add_metrics_then_summary_witness :
  exists d' s s',
    add_metrics metrics_A empty_db = (Ok (metrics_id metrics_A), d') /\
    get_metrics_summary None empty_db = (Ok s, empty_db) /\
    get_metrics_summary None d' = (Ok s', d') /\
    total_requests s' = (total_requests s + 1)%Z /\
    total_input_tokens s' =
      Some (match total_input_tokens s with Some t => t | None => 0 end
            + token_count_input metrics_A)%Z /\
    total_output_tokens s' =
      Some (match total_output_tokens s with Some t => t | None => 0 end
            + token_count_output metrics_A)%Z /\
    (forall sid t t', sid <> [] ->
       get_metrics_summary (Some sid) empty_db = (Ok t, empty_db) ->
       get_metrics_summary (Some sid) d' = (Ok t', d') ->
       total_requests t' =
         (total_requests t +
          if str_eqb (metrics_session_id metrics_A) sid then 1 else 0)%Z).
Proof. apply add_metrics_then_summary; reflexivity. Defined.

(** ** Tracking: starting, resolving, ending *)

Lemma starts_with_app (s r : str) : starts_with s (s ++ r) = true.
Proof. induction s as [|c s IH]; simpl; auto. now rewrite N.eqb_refl. Qed.

Lemma contains_middle (s l r : str) : contains s (l ++ s ++ r) = true.
Proof.
  induction l as [|c l IH].
  - simpl. destruct (s ++ r) eqn:E.
    + destruct s; [reflexivity | discriminate].
    + unfold contains. fold contains. rewrite <- E, starts_with_app. reflexivity.
  - change ((c :: l) ++ s ++ r) with (c :: (l ++ s ++ r)).
    unfold contains. fold contains. rewrite IH. apply orb_true_r.
Qed.

Lemma crew_in_own_key (crew : str) (now : Z) :
  contains crew (crew_id_of crew now) = true.
Proof. unfold crew_id_of. apply contains_middle. Qed.

Lemma contains_nil (s : str) : contains [] s = true.
Proof. destruct s; reflexivity. Qed.

Lemma dget_none_not_in {V} (k : str) (d : dict V) :
  dget k d = None -> ~ In k (map fst d).
Proof.
  induction d as [|[k' v'] d IH]; simpl; intros H Hin; [contradiction|].
  destruct Hin as [Hin|Hin].
  - subst. now rewrite str_eqb_refl in H.
  - destruct (str_eqb k k'); [discriminate|]. now apply IH.
Qed.

Lemma find_key_none {V} (P : str -> bool) (d : dict V) (k : str) :
  find (fun kv => P (fst kv)) d = None -> In k (map fst d) -> P k = false.
Proof.
  induction d as [|[k' v'] d IH]; simpl; intros H Hin; [contradiction|].
  destruct Hin as [Hin|Hin].
  - subst. destruct (P k); [discriminate | reflexivity].
  - destruct (P k'); [discriminate|]. auto.
Qed.

Lemma find_snoc {A} (P : A -> bool) (l : list A) (x : A) :
  find P (l ++ [x]) =
  match find P l with
  | Some y => Some y
  | None => if P x then Some x else None
  end.
Proof.
  induction l as [|a l IH]; simpl; [reflexivity|].
  destruct (P a); auto.
Qed.

Lemma ddel_snoc_fresh {V} (k : str) (v : V) (d : dict V) :
  ~ In k (map fst d) -> ddel k (d ++ [(k, v)]) = d.
Proof.
  induction d as [|[k' v'] d IH]; simpl; intro H.
  - now rewrite str_eqb_refl.
  - destruct (str_eqb k k') eqn:E.
    + apply str_eqb_eq in E. subst. tauto.
    + rewrite IH by tauto. reflexivity.
Qed.

Section TrackingFacts.
Context {U : Unicode}.

(** A successful [start_crew_session], step by step. *)
Lemma start_session_state o d now us ue crew agents tasks meta :
  ready d = true ->
  has_id session_id_of us (agent_sessions d) = false ->
  has_id event_id ue (system_events d) = false ->
  exists o' d' session ev,
    start_crew_session now us ue crew agents tasks meta (o, d)
    = (Ok us, (o', d')) /\
    project_name o' = project_name o /\
    active_sessions o' = dset (crew_id_of crew now) us (active_sessions o) /\
    conversation_contexts o' = conversation_contexts o /\
    ready d' = true /\
    agent_sessions d' = agent_sessions d ++ [session] /\
    session_id_of session = us /\
    status session = AgentStatus.ACTIVE /\
    conversations d' = conversations d /\
    messages d' = messages d /\
    performance_metrics d' = performance_metrics d /\
    system_events d' = system_events d ++ [ev] /\
    event_id ev = ue /\
    event_type ev = EventType.INFO /\
    event_session_id ev = Some us.
Proof.
  intros Hr Hus Hue.
  unfold start_crew_session, bind, self, db_call, create_session,
    set_active_sessions, _log_event, add_event, ret. cbn [fst snd].
  rewrite insert_ok by auto. cbn [fst snd].
  unfold db_call. cbn [fst snd].
  rewrite insert_ok by auto. cbn [fst snd].
  do 4 eexists. split; [reflexivity|]. simpl. auto 20.
Qed.

Lemma get_session_id_none o crew k :
  _get_session_id o crew = None -> In k (map fst (active_sessions o)) ->
  contains crew k = false.
Proof.
  unfold _get_session_id. intros H Hin.
  apply (find_key_none (contains crew) (active_sessions o)); auto.
  destruct (find (fun kv => contains crew (fst kv)) (active_sessions o))
    as [[? ?]|]; [discriminate | reflexivity].
Qed.

Lemma crew_key_untracked o crew now :
  _get_session_id o crew = None ->
  ~ In (crew_id_of crew now) (map fst (active_sessions o)).
Proof.
  intros H Hin. pose proof (@get_session_id_none o crew _ H Hin) as Hc.
  rewrite crew_in_own_key in Hc. discriminate.
Qed.

End TrackingFacts.

(** X10. A crew name that resolved to no session resolves, after a successful
    [start_crew_session], to the session just started, which is tracked last
    under the key made of the name and the second. *)
Theorem start_then_resolves {U : Unicode} (o : CrewAIObserver) (d : db)
    (now : Z) (us ue crew : str) (agents tasks : list str)
    (meta : option (dict value)) :
  ready d = true ->
  has_id session_id_of us (agent_sessions d) = false ->
  has_id event_id ue (system_events d) = false ->
  _get_session_id o crew = None ->
  exists o' d',
    start_crew_session now us ue crew agents tasks meta (o, d)
    = (Ok us, (o', d')) /\
    active_sessions o' = active_sessions o ++ [(crew_id_of crew now, us)] /\
    _get_session_id o' crew = Some us.
Proof.
  intros Hr Hus Hue Hnone.
  destruct (@start_session_state U o d now us ue crew agents tasks meta Hr Hus Hue)
    as (o' & d' & session & ev & Hrun & _ & Hact & _).
  rewrite dset_fresh in Hact by now apply crew_key_untracked.
  exists o', d'. split; [exact Hrun|]. split; [exact Hact|].
  unfold _get_session_id in *. rewrite Hact, find_snoc.
  destruct (find (fun kv => contains crew (fst kv)) (active_sessions o))
    as [[? ?]|]; [discriminate|].
  cbn [fst]. now rewrite crew_in_own_key.
Qed.

Lemma start_then_resolves_witness :
  exists o' d',
    start_crew_session (U := ascii_tables) 1000 (py "s-1") (py "e-1") (py "A")
      [py "Analyzer"] [py "Analyze"] None (new_observer (py "EHR"), empty_db)
    = (Ok (py "s-1"), (o', d')) /\
    active_sessions o' =
      active_sessions (new_observer (py "EHR")) ++ [(crew_id_of (py "A") 1000, py "s-1")] /\
    _get_session_id o' (py "A") = Some (py "s-1").
Proof. apply (start_then_resolves (U := ascii_tables)); reflexivity. Defined.

(** X11. A crew name that already resolves to a session keeps resolving to
    it after a further [start_crew_session] under a key not yet tracked (the
    same crew started again in a later second, or a crew whose name is part
    of a tracked key): the session just started is stored and tracked, but no
    call by that crew name reaches it. *)
Theorem started_crew_is_shadowed {U : Unicode} (o : CrewAIObserver) (d : db)
    (now : Z) (us ue crew old : str) (agents tasks : list str)
    (meta : option (dict value)) :
  ready d = true ->
  has_id session_id_of us (agent_sessions d) = false ->
  has_id event_id ue (system_events d) = false ->
  _get_session_id o crew = Some old ->
  dget (crew_id_of crew now) (active_sessions o) = None ->
  exists o' d',
    start_crew_session now us ue crew agents tasks meta (o, d)
    = (Ok us, (o', d')) /\
    dget (crew_id_of crew now) (active_sessions o') = Some us /\
    _get_session_id o' crew = Some old.
Proof.
  intros Hr Hus Hue Hold Hkey.
  destruct (@start_session_state U o d now us ue crew agents tasks meta Hr Hus Hue)
    as (o' & d' & session & ev & Hrun & _ & Hact & _).
  exists o', d'. split; [exact Hrun|]. split.
  - rewrite Hact. apply dget_dset_same.
  - rewrite dset_fresh in Hact by now apply dget_none_not_in.
    unfold _get_session_id in *. rewrite Hact, find_snoc.
    destruct (find (fun kv => contains crew (fst kv)) (active_sessions o))
      as [[? ?]|]; [exact Hold | discriminate].
Qed.

Lemma started_crew_is_shadowed_witness :
  exists o' d',
    start_crew_session (U := ascii_tables) 1001 (py "s-2") (py "e-1") (py "A")
      [py "Analyzer"] [py "Analyze"] None (tracking_A, empty_db)
    = (Ok (py "s-2"), (o', d')) /\
    dget (crew_id_of (py "A") 1001) (active_sessions o') = Some (py "s-2") /\
    _get_session_id o' (py "A") = Some (py "s-1").
Proof. apply (started_crew_is_shadowed (U := ascii_tables)); reflexivity. Defined.

(** X12. A successful [start_crew_session] adds one session row, whose
    status is active, and one INFO event of that session, and nothing else:
    [get_active_sessions] then returns the sessions it returned before and
    the new one. *)
Theorem start_session_is_listed {U : Unicode} (o : CrewAIObserver) (d : db)
    (now : Z) (us ue crew : str) (agents tasks : list str)
    (meta : option (dict value)) :
  ready d = true ->
  has_id session_id_of us (agent_sessions d) = false ->
  has_id event_id ue (system_events d) = false ->
  exists o' d' session ev before after,
    start_crew_session now us ue crew agents tasks meta (o, d)
    = (Ok us, (o', d')) /\
    get_active_sessions d = (Ok before, d) /\
    get_active_sessions d' = (Ok after, d') /\
    (forall r, In r after <-> In r before \/ r = session) /\
    length after = S (length before) /\
    session_id_of session = us /\
    system_events d' = system_events d ++ [ev] /\
    event_type ev = EventType.INFO /\
    event_session_id ev = Some us /\
    conversations d' = conversations d /\
    messages d' = messages d /\
    performance_metrics d' = performance_metrics d.
Proof.
  intros Hr Hus Hue.
  destruct (@start_session_state U o d now us ue crew agents tasks meta Hr Hus Hue)
    as (o' & d' & session & ev & Hrun & _ & _ & _ & Hr' & Hs & Hid & Hst & Hc &
        Hm & Hp & He & _ & Hty & Hsid).
  exists o', d', session, ev. do 2 eexists. split; [exact Hrun|].
  assert (Hact : is_active session = true) by (unfold is_active; now rewrite Hst).
  unfold get_active_sessions. rewrite Hr, Hr', Hs, filter_app.
  cbn [negb filter]. rewrite Hact.
  split; [reflexivity|]. split; [reflexivity|]. split; [|split].
  - intro r. rewrite in_app_iff. simpl. intuition.
  - rewrite length_app. simpl. lia.
  - auto 10.
Qed.

Lemma start_session_is_listed_witness :
  exists o' d' session ev before after,
    start_crew_session (U := ascii_tables) 1000 (py "s-1") (py "e-1") (py "A")
      [py "Analyzer"] [py "Analyze"] None (new_observer (py "EHR"), empty_db)
    = (Ok (py "s-1"), (o', d')) /\
    get_active_sessions empty_db = (Ok before, empty_db) /\
    get_active_sessions d' = (Ok after, d') /\
    (forall r, In r after <-> In r before \/ r = session) /\
    length after = S (length before) /\
    session_id_of session = py "s-1" /\
    system_events d' = system_events empty_db ++ [ev] /\
    event_type ev = EventType.INFO /\
    event_session_id ev = Some (py "s-1") /\
    conversations d' = conversations empty_db /\
    messages d' = messages empty_db /\
    performance_metrics d' = performance_metrics empty_db.
Proof. apply (start_session_is_listed (U := ascii_tables)); reflexivity. Defined.

(** X13. [end_crew_session] never touches the table of sessions, whatever it
    is given and however it ends: the status and end time it computes are not
    written back, and [get_active_sessions] returns after the call what it
    returned before. Conversations, messages and metrics are untouched too. *)
Theorem end_session_never_writes_back {U : Unicode} (o : CrewAIObserver)
    (d : db) (now : Z) (ue crew : str) (success : bool) (summary : str) :
  agent_sessions (snd (snd (end_crew_session now ue crew success summary (o, d))))
  = agent_sessions d /\
  fst (get_active_sessions
         (snd (snd (end_crew_session now ue crew success summary (o, d)))))
  = fst (get_active_sessions d) /\
  conversations (snd (snd (end_crew_session now ue crew success summary (o, d))))
  = conversations d /\
  messages (snd (snd (end_crew_session now ue crew success summary (o, d))))
  = messages d /\
  performance_metrics
    (snd (snd (end_crew_session now ue crew success summary (o, d))))
  = performance_metrics d.
Proof.
  assert (H : agent_sessions
                (snd (snd (end_crew_session now ue crew success summary (o, d))))
              = agent_sessions d /\
              ready (snd (snd (end_crew_session now ue crew success summary (o, d))))
              = ready d /\
              conversations
                (snd (snd (end_crew_session now ue crew success summary (o, d))))
              = conversations d /\
              messages
                (snd (snd (end_crew_session now ue crew success summary (o, d))))
              = messages d /\
              performance_metrics
                (snd (snd (end_crew_session now ue crew success summary (o, d))))
              = performance_metrics d).
  { unfold end_crew_session, bind, self. cbn [fst].
    destruct (truthy (_get_session_id o crew)) as [sid|]; [|simpl; auto].
    unfold db_call, get_session, _log_event. cbn [fst snd].
    destruct (ready d) eqn:Hr; [|simpl; auto]. simpl.
    unfold db_call, add_event, insert. cbn [fst snd]. rewrite Hr. simpl.
    destruct (has_id event_id ue (system_events d)); simpl; auto.
    unfold dmem.
    destruct (dget (crew_id_of crew now) (active_sessions o)); simpl; auto. }
  destruct H as (Hs & Hr & Hc & Hm & Hp).
  unfold get_active_sessions. rewrite Hr, Hs.
  repeat split; auto. destruct (ready d); reflexivity.
Qed.

(** X14. On a tracked crew, with the store ready and the id new,
    [end_crew_session] appends one completion event of the session, INFO on
    success and ERROR otherwise, whose summary is the sanitized summary cut
    to 500 characters, and deletes from the tracking the key built from the
    second of the call. *)
Theorem end_session_event {U : Unicode} (o : CrewAIObserver) (d : db)
    (now : Z) (ue crew : str) (success : bool) (summary sid : str) :
  truthy (_get_session_id o crew) = Some sid ->
  ready d = true ->
  has_id event_id ue (system_events d) = false ->
  exists o' d' ev,
    end_crew_session now ue crew success summary (o, d) = (Ok tt, (o', d')) /\
    active_sessions o' = ddel (crew_id_of crew now) (active_sessions o) /\
    system_events d' = system_events d ++ [ev] /\
    event_type ev = (if success then EventType.INFO else EventType.ERROR) /\
    event_session_id ev = Some sid /\
    message ev = py "Completed CrewAI session: " ++ crew /\
    dget (py "summary") (details ev) =
      Some (VStr (firstn 500 (_sanitize_ehr_content summary))) /\
    length (firstn 500 (_sanitize_ehr_content summary)) <= 500.
Proof.
  intros Hsid Hr Hue.
  pose proof (firstn_le_length 500 (_sanitize_ehr_content summary)) as Hlen.
  unfold end_crew_session, bind, self, slice_to. cbn [fst]. rewrite Hsid.
  remember (firstn 500 (_sanitize_ehr_content summary)) as cut.
  unfold db_call, get_session, _log_event. cbn [fst snd]. rewrite Hr. simpl.
  unfold db_call, add_event. cbn [fst snd].
  rewrite insert_ok by auto. cbn [fst snd]. unfold dmem.
  destruct (dget (crew_id_of crew now) (active_sessions o)) eqn:E.
  - do 3 eexists. split; [reflexivity|]. simpl.
    repeat split; try reflexivity. exact Hlen.
  - do 3 eexists. split; [reflexivity|]. simpl.
    rewrite ddel_absent by assumption.
    repeat split; try reflexivity. exact Hlen.
Qed.

Lemma end_session_event_witness :
  exists o' d' ev,
    end_crew_session (U := ascii_tables) 1000 (py "e-2") (py "A") false
      (py "failed for John Smith") (tracking_A, empty_db) = (Ok tt, (o', d')) /\
    active_sessions o' =
      ddel (crew_id_of (py "A") 1000) (active_sessions tracking_A) /\
    system_events d' = system_events empty_db ++ [ev] /\
    event_type ev = (if false then EventType.INFO else EventType.ERROR) /\
    event_session_id ev = Some (py "s-1") /\
    message ev = py "Completed CrewAI session: " ++ py "A" /\
    dget (py "summary") (details ev) =
      Some (VStr (firstn 500 (_sanitize_ehr_content (U := ascii_tables)
                                (py "failed for John Smith")))) /\
    length (firstn 500 (_sanitize_ehr_content (U := ascii_tables)
                          (py "failed for John Smith"))) <= 500.
Proof. apply (end_session_event (U := ascii_tables)); reflexivity. Defined.

(** X15. A crew whose name resolved to nothing, started and then ended within
    the same second, both calls succeeding: the tracking is back to what it
    was before the start and the name resolves to nothing again, so that
    further calls by that name are dropped. *)
Theorem start_end_same_second {U : Unicode} (o : CrewAIObserver) (d : db)
    (now : Z) (us ue1 ue2 crew : str) (agents tasks : list str)
    (meta : option (dict value)) (success : bool) (summary : str) :
  ready d = true ->
  has_id session_id_of us (agent_sessions d) = false ->
  has_id event_id ue1 (system_events d) = false ->
  has_id event_id ue2 (system_events d) = false ->
  ue1 <> ue2 ->
  us <> [] ->
  _get_session_id o crew = None ->
  exists o1 d1 o2 d2,
    start_crew_session now us ue1 crew agents tasks meta (o, d)
    = (Ok us, (o1, d1)) /\
    end_crew_session now ue2 crew success summary (o1, d1)
    = (Ok tt, (o2, d2)) /\
    active_sessions o2 = active_sessions o /\
    _get_session_id o2 crew = None /\
    length (system_events d2) = 2 + length (system_events d).
Proof.
  intros Hr Hus Hue1 Hue2 Hne Hnonempty Hnone.
  destruct (@start_session_state U o d now us ue1 crew agents tasks meta Hr Hus Hue1)
    as (o1 & d1 & session & ev & Hrun & _ & Hact & _ & Hr1 & _ & _ & _ & _ & _ &
        _ & He & Hev & _).
  pose proof (crew_key_untracked o crew now Hnone) as Hfresh.
  rewrite dset_fresh in Hact by assumption.
  assert (Hres : truthy (_get_session_id o1 crew) = Some us).
  { unfold _get_session_id in *. rewrite Hact, find_snoc.
    destruct (find (fun kv => contains crew (fst kv)) (active_sessions o))
      as [[? ?]|]; [discriminate|].
    cbn [fst]. rewrite crew_in_own_key. destruct us; [congruence | reflexivity]. }
  assert (Hue2' : has_id event_id ue2 (system_events d1) = false).
  { rewrite He, has_id_app, Hue2. simpl. rewrite Hev.
    apply str_eqb_neq in Hne. now rewrite Hne. }
  destruct (@end_session_tracked U o1 d1 now ue2 crew success summary us
              Hres Hr1 Hue2') as (o2 & d2 & Hend & Hact2 & Hlen).
  exists o1, d1, o2, d2. split; [exact Hrun|]. split; [exact Hend|].
  assert (Hback : active_sessions o2 = active_sessions o).
  { rewrite Hact2, Hact. now apply ddel_snoc_fresh. }
  split; [exact Hback|]. split.
  - unfold _get_session_id in *. now rewrite Hback.
  - rewrite Hlen, He, length_app. simpl. lia.
Qed.

Lemma start_end_same_second_witness :
  exists o1 d1 o2 d2,
    start_crew_session (U := ascii_tables) 1000 (py "s-1") (py "e-1") (py "A")
      [py "Analyzer"] [py "Analyze"] None (new_observer (py "EHR"), empty_db)
    = (Ok (py "s-1"), (o1, d1)) /\
    end_crew_session (U := ascii_tables) 1000 (py "e-2") (py "A") true (py "done")
      (o1, d1) = (Ok tt, (o2, d2)) /\
    active_sessions o2 = active_sessions (new_observer (py "EHR")) /\
    _get_session_id o2 (py "A") = None /\
    length (system_events d2) = 2 + length (system_events empty_db).
Proof.
  apply (start_end_same_second (U := ascii_tables)); try reflexivity;
    intro H; vm_compute in H; discriminate.
Defined.

(** ** Errors, partial writes, the context manager *)

(** X16. On a tracked crew, with the store ready and the id new, [log_error]
    appends exactly one ERROR event of the session and changes nothing else.
    The event carries the text of the exception as it is, not sanitized: the
    first 200 characters in the message and the first 1000 as stack trace;
    only the context goes through [_sanitize_metadata]. *)
Theorem log_error_event {U : Unicode} (o : CrewAIObserver) (d : db)
    (ue crew agent sid : str) (error : py_exception)
    (context : option (dict value)) :
  truthy (_get_session_id o crew) = Some sid ->
  ready d = true ->
  has_id event_id ue (system_events d) = false ->
  exists d' ev,
    log_error ue crew agent error context (o, d) = (Ok tt, (o, d')) /\
    system_events d' = system_events d ++ [ev] /\
    event_type ev = EventType.ERROR /\
    event_session_id ev = Some sid /\
    message ev = py "Error in agent " ++ agent ++ py ": " ++
                 firstn 200 (exc_str error) ++ py "..." /\
    stack_trace ev = Some (firstn 1000 (exc_str error)) /\
    dget (py "context") (details ev) =
      Some (VDict (_sanitize_metadata
                     (match context with Some c => c | None => [] end))) /\
    agent_sessions d' = agent_sessions d /\
    conversations d' = conversations d /\
    messages d' = messages d /\
    performance_metrics d' = performance_metrics d.
Proof.
  intros Hsid Hr Hue.
  unfold log_error, bind, self. cbn [fst]. rewrite Hsid.
  unfold db_call, add_event, ret. cbn [fst snd].
  rewrite insert_ok by auto. cbn [fst snd].
  destruct o as [pn act ctx]. do 2 eexists. split; [reflexivity|].
  cbn [system_events set_events agent_sessions conversations messages
         performance_metrics]. split; [reflexivity|].
  unfold error_event, slice_to.
  cbn [event_type event_session_id message stack_trace details].
  repeat split; reflexivity.
Qed.

Lemma log_error_event_witness :
  exists d' ev,
    log_error (U := ascii_tables) (py "e-1") (py "A") (py "Analyzer")
      {| exc_type_name := py "ValueError";
         exc_str := py "bad SSN 123-45-6789" |}
      (Some [(py "note", VStr (py "SSN 123-45-6789"))]) (tracking_A, empty_db)
    = (Ok tt, (tracking_A, d')) /\
    system_events d' = system_events empty_db ++ [ev] /\
    event_type ev = EventType.ERROR /\
    event_session_id ev = Some (py "s-1") /\
    message ev = py "Error in agent " ++ py "Analyzer" ++ py ": " ++
                 firstn 200 (py "bad SSN 123-45-6789") ++ py "..." /\
    stack_trace ev = Some (firstn 1000 (py "bad SSN 123-45-6789")) /\
    dget (py "context") (details ev) =
      Some (VDict (_sanitize_metadata (U := ascii_tables)
                     [(py "note", VStr (py "SSN 123-45-6789"))])) /\
    agent_sessions d' = agent_sessions empty_db /\
    conversations d' = conversations empty_db /\
    messages d' = messages empty_db /\
    performance_metrics d' = performance_metrics empty_db.
Proof. apply (log_error_event (U := ascii_tables)); reflexivity. Defined.

Section GrowthFacts.
Context {U : Unicode}.

Lemma grows_ret {A} (a : A) : store_grows (ret (S := state) a).
Proof. intros st. simpl. auto using append_only_refl. Qed.

Lemma grows_raise {A} (e : exn) : store_grows (raise (S := state) (A := A) e).
Proof. intros st. simpl. auto using append_only_refl. Qed.

Lemma grows_self : store_grows self.
Proof. intros st. simpl. auto using append_only_refl. Qed.

Lemma grows_bind {A B} (c : M state A) (k : A -> M state B) :
  store_grows c -> (forall a, store_grows (k a)) -> store_grows (bind c k).
Proof.
  intros Hc Hk st. unfold bind. destruct (Hc st) as [H1 H2].
  destruct (c st) as [[a|e] st'] eqn:E; simpl in *; [|auto].
  destruct (Hk a st') as [H3 H4]. split.
  - eapply append_only_trans; eauto.
  - congruence.
Qed.

Lemma grows_db_call {A} (c : M db A) :
  (forall d, append_only d (snd (c d))) -> store_grows (db_call c).
Proof.
  intros Hc st. unfold db_call. specialize (Hc (snd st)).
  destruct (c (snd st)) as [r d']. simpl in *. auto.
Qed.

Lemma grows_set_active a : store_grows (set_active_sessions a).
Proof. intros st. simpl. auto using append_only_refl. Qed.

Lemma grows_set_contexts c : store_grows (set_conversation_contexts c).
Proof. intros st. simpl. auto using append_only_refl. Qed.

Lemma get_session_append_only id d : append_only d (snd (get_session id d)).
Proof.
  unfold get_session. destruct (ready d); simpl; apply append_only_refl.
Qed.

End GrowthFacts.

(** X17. Whatever they are given and however they end, the four operations
    of the observer only ever append to the tables: every row that was in the
    store is still there, unchanged and in its place, and whether the store
    is ready does not change; nor does the project name of the observer. *)
Theorem observer_is_append_only {U : Unicode} :
  (forall now us ue crew agents tasks meta,
     store_grows (start_crew_session now us ue crew agents tasks meta)) /\
  (forall uc uu ua um crew agent task input response t tok,
     store_grows (log_agent_interaction uc uu ua um crew agent task input
                    response t tok)) /\
  (forall ue crew agent error context,
     store_grows (log_error ue crew agent error context)) /\
  (forall now ue crew success summary,
     store_grows (end_crew_session now ue crew success summary)).
Proof.
  split; [|split; [|split]]; intros.
  - unfold start_crew_session.
    apply grows_bind; [apply grows_self|]. intro o.
    apply grows_bind;
      [apply grows_db_call; intro; apply create_session_append_only|]. intros _.
    apply grows_bind; [apply grows_set_active|]. intros _.
    apply grows_bind;
      [apply grows_db_call; intro; apply add_event_append_only|]. intros _.
    apply grows_ret.
  - unfold log_agent_interaction.
    apply grows_bind; [apply grows_self|]. intro o.
    destruct (truthy (_get_session_id o crew)) as [sid|]; [|apply grows_ret].
    apply grows_bind.
    + unfold _get_or_create_conversation.
      apply grows_bind; [apply grows_self|]. intro o1.
      apply grows_bind.
      * destruct (negb _); [|apply grows_ret].
        apply grows_bind;
          [apply grows_db_call; intro; apply create_conversation_append_only|].
        intros _. apply grows_set_contexts.
      * intros _. apply grows_bind; [apply grows_self|]. intro o2.
        destruct (dget _ _); [apply grows_ret | apply grows_raise].
    + intro cid.
      apply grows_bind;
        [apply grows_db_call; intro; apply add_message_append_only|]. intros _.
      apply grows_bind;
        [apply grows_db_call; intro; apply add_message_append_only|]. intros _.
      apply grows_bind;
        [apply grows_db_call; intro; apply add_metrics_append_only|]. intros _.
      apply grows_ret.
  - unfold log_error.
    apply grows_bind; [apply grows_self|]. intro o.
    destruct (truthy (_get_session_id o crew)) as [sid|]; [|apply grows_ret].
    apply grows_bind;
      [apply grows_db_call; intro; apply add_event_append_only|]. intros _.
    apply grows_ret.
  - unfold end_crew_session.
    apply grows_bind; [apply grows_self|]. intro o.
    destruct (truthy (_get_session_id o crew)) as [sid|]; [|apply grows_ret].
    apply grows_bind;
      [apply grows_db_call; intro; apply get_session_append_only|]. intros _.
    apply grows_bind;
      [apply grows_db_call; intro; apply add_event_append_only|]. intros _.
    apply grows_bind; [apply grows_self|]. intro o1.
    destruct (dmem _ _); [apply grows_set_active | apply grows_ret].
Qed.

Lemma insert_dup {R} (table : db -> list R) (key : R -> str)
    (store : list R -> db -> db) (row : R) (d : db) :
  ready d = true -> has_id key (key row) (table d) = true ->
  insert table key store row d = (Raise IntegrityError, d).
Proof. intros Hr Hid. unfold insert. now rewrite Hr, Hid. Qed.

Section PartialWrites.
Context {U : Unicode}.

Lemma log_interaction_metrics_dup o d o1 d1 uc uu ua um crew agent task input
    response t tok sid cid :
  truthy (_get_session_id o crew) = Some sid ->
  _get_or_create_conversation uc sid agent task (o, d) = (Ok cid, (o1, d1)) ->
  ready d1 = true ->
  has_id row_id uu (messages d1) = false ->
  has_id row_id ua (messages d1) = false ->
  uu <> ua ->
  has_id metrics_id um (performance_metrics d1) = true ->
  exists d',
    log_agent_interaction uc uu ua um crew agent task input response t tok (o, d)
    = (Raise IntegrityError, (o1, d')) /\
    conversations d' = conversations d1 /\
    messages d' = messages d1 ++
      [ {| row_conversation_id := cid;
           row_message := user_message uu agent task input |};
        {| row_conversation_id := cid;
           row_message := agent_message ua agent response t |} ] /\
    performance_metrics d' = performance_metrics d1.
Proof.
  intros Hsid Hgoc Hr Huu Hua Hne Hum.
  unfold log_agent_interaction. unfold bind at 1. unfold self at 1.
  cbv beta iota. cbn [fst]. rewrite Hsid.
  unfold bind at 1. rewrite Hgoc.
  unfold bind, db_call, add_message, add_metrics, ret. simpl.
  rewrite insert_ok; auto. simpl.
  rewrite insert_ok; simpl; auto.
  2:{ match goal with |- has_id _ ?x _ = _ => change x with ua end.
      rewrite has_id_app, Hua. simpl. unfold row_id. simpl.
      rewrite orb_false_r. apply str_eqb_neq. auto. }
  rewrite insert_dup; simpl; auto.
  eexists. split; [reflexivity|]. simpl.
  rewrite <- app_assoc. simpl. auto.
Qed.

(** The first interaction of a triple, with the observer it leaves. *)
Lemma log_interaction_step_new o d uc uu ua um crew agent task input response t
    tok sid :
  truthy (_get_session_id o crew) = Some sid ->
  ready d = true ->
  dget (conversation_key sid agent (_classify_task task))
       (conversation_contexts o) = None ->
  has_id conversation_id_of uc (conversations d) = false ->
  has_id row_id uu (messages d) = false ->
  has_id row_id ua (messages d) = false ->
  uu <> ua ->
  has_id metrics_id um (performance_metrics d) = false ->
  exists d1,
    log_agent_interaction uc uu ua um crew agent task input response t tok (o, d)
    = (Ok tt,
       (with_contexts o
          (dset (conversation_key sid agent (_classify_task task)) uc
             (conversation_contexts o)), d1)) /\
    ready d1 = true /\
    conversations d1 = conversations d ++ [new_conversation uc sid agent task] /\
    messages d1 = messages d ++
      [ {| row_conversation_id := uc;
           row_message := user_message uu agent task input |};
        {| row_conversation_id := uc;
           row_message := agent_message ua agent response t |} ] /\
    performance_metrics d1 = performance_metrics d ++
      [ interaction_metrics um sid uc agent task t tok ].
Proof.
  intros Hsid Hr Hkey Huc Huu Hua Hne Hum.
  destruct (@log_interaction_after U o d _ _ uc uu ua um crew agent task input
              response t tok sid uc Hsid
              (@get_or_create_new U o d uc sid agent task Hkey Hr Huc)
              Hr Huu Hua Hne Hum)
    as (d' & Hrun & Hr' & _ & Hc & Hm & Hp & _).
  exists d'. auto 10.
Qed.

End PartialWrites.

(** X18. The messages and the metrics of one interaction are written one
    after the other with nothing to undo them: when the insert of the metrics
    row fails because its id is taken, [log_agent_interaction] raises
    [IntegrityError] and the two messages stay in the store, with no metrics
    row beside them. *)
Theorem metrics_failure_keeps_messages {U : Unicode} (o : CrewAIObserver)
    (d : db) (uc uu ua um crew agent task input response : str) (t : Q)
    (tok : option (dict Z)) (sid : str) :
  truthy (_get_session_id o crew) = Some sid ->
  ready d = true ->
  (dget (conversation_key sid agent (_classify_task task))
        (conversation_contexts o) = None ->
   has_id conversation_id_of uc (conversations d) = false) ->
  has_id row_id uu (messages d) = false ->
  has_id row_id ua (messages d) = false ->
  uu <> ua ->
  has_id metrics_id um (performance_metrics d) = true ->
  exists o1 d1 mu ma,
    log_agent_interaction uc uu ua um crew agent task input response t tok (o, d)
    = (Raise IntegrityError, (o1, d1)) /\
    messages d1 = messages d ++ [mu; ma] /\
    message_id (row_message mu) = uu /\
    message_id (row_message ma) = ua /\
    performance_metrics d1 = performance_metrics d.
Proof.
  intros Hsid Hr Hconv Huu Hua Hne Hum.
  destruct (dget (conversation_key sid agent (_classify_task task))
              (conversation_contexts o)) as [cid|] eqn:Hkey.
  - destruct (@log_interaction_metrics_dup U o d o d uc uu ua um crew agent task
                input response t tok sid cid Hsid
                (@get_or_create_seen U o d uc sid agent task cid Hkey)
                Hr Huu Hua Hne Hum)
      as (d' & Hrun & _ & Hm & Hp).
    do 4 eexists. split; [exact Hrun|]. rewrite Hm, Hp.
    repeat split; reflexivity.
  - destruct (@log_interaction_metrics_dup U o d _ _ uc uu ua um crew agent task
                input response t tok sid uc Hsid
                (@get_or_create_new U o d uc sid agent task Hkey Hr
                   (Hconv eq_refl))
                Hr Huu Hua Hne Hum)
      as (d' & Hrun & _ & Hm & Hp).
    do 4 eexists. split; [exact Hrun|]. rewrite Hm, Hp.
    repeat split; reflexivity.
Qed.

Lemma metrics_failure_keeps_messages_witness :
  exists o1 d1 mu ma,
    log_agent_interaction (U := ascii_tables) (py "c-1") (py "m-1") (py "m-2")
      (py "p-1") (py "A") (py "Analyzer") (py "Analyze the chart")
      (py "in") (py "out") (5#1)%Q None (tracking_A, store_with_metrics_A)
    = (Raise IntegrityError, (o1, d1)) /\
    messages d1 = messages store_with_metrics_A ++ [mu; ma] /\
    message_id (row_message mu) = py "m-1" /\
    message_id (row_message ma) = py "m-2" /\
    performance_metrics d1 = performance_metrics store_with_metrics_A.
Proof.
  eapply (metrics_failure_keeps_messages (U := ascii_tables));
    try reflexivity.
  intro H. vm_compute in H. discriminate.
Defined.

(** X19. [monitor_crewai_task] around a block of work. A block that returns
    is left alone: nothing is logged. A block that raises never returns
    normally to the caller: with the crew untracked its exception is
    re-raised and nothing is written; with the crew tracked, the store ready
    and the id new, one ERROR event holding the elapsed time is written and
    the exception of the block is re-raised; with the crew tracked and the
    store not ready, the caller gets the [OperationalError] of the logging
    instead of the exception of the block. *)
Theorem monitor_logs_once_and_reraises {U : Unicode} {A : Type}
    (ue : str) (elapsed : Q) (crew agent task : str)
    (block : state -> (A + py_exception) * state) (st : state) :
  (forall a st1, block st = (inl a, st1) ->
     monitor_crewai_task ue elapsed crew agent task block st = (inl a, st1)) /\
  (forall e o1 d1, block st = (inr e, (o1, d1)) ->
     truthy (_get_session_id o1 crew) = None ->
     monitor_crewai_task ue elapsed crew agent task block st
     = (inr (Reraised e), (o1, d1))) /\
  (forall e o1 d1 sid, block st = (inr e, (o1, d1)) ->
     truthy (_get_session_id o1 crew) = Some sid ->
     ready d1 = true ->
     has_id event_id ue (system_events d1) = false ->
     exists d2 ev,
       monitor_crewai_task ue elapsed crew agent task block st
       = (inr (Reraised e), (o1, d2)) /\
       system_events d2 = system_events d1 ++ [ev] /\
       event_type ev = EventType.ERROR /\
       event_session_id ev = Some sid /\
       dget (py "context") (details ev) =
         Some (VDict [(py "execution_time_ms", VFloat elapsed)])) /\
  (forall e o1 d1 sid, block st = (inr e, (o1, d1)) ->
     truthy (_get_session_id o1 crew) = Some sid ->
     ready d1 = false ->
     monitor_crewai_task ue elapsed crew agent task block st
     = (inr (WhileLogging OperationalError), (o1, d1))).
Proof.
  split; [|split; [|split]].
  - intros a st1 Hb. unfold monitor_crewai_task. now rewrite Hb.
  - intros e o1 d1 Hb Hsid. unfold monitor_crewai_task. rewrite Hb.
    unfold log_error, bind, self. cbn [fst]. rewrite Hsid. reflexivity.
  - intros e o1 d1 sid Hb Hsid Hr Hue. unfold monitor_crewai_task. rewrite Hb.
    unfold log_error, bind, self. cbn [fst]. rewrite Hsid.
    unfold db_call, add_event, ret. cbn [fst snd].
    rewrite insert_ok by auto. cbn [fst snd].
    destruct o1 as [pn act ctx]. do 2 eexists. split; [reflexivity|].
    cbn [system_events set_events]. split; [reflexivity|].
    repeat split; reflexivity.
  - intros e o1 d1 sid Hb Hsid Hr. unfold monitor_crewai_task. rewrite Hb.
    unfold log_error, bind, self. cbn [fst]. rewrite Hsid.
    unfold db_call, add_event, ret. cbn [fst snd].
    rewrite insert_not_ready by auto. cbn [fst snd].
    destruct o1; reflexivity.
Qed.

Lemma monitor_logs_once_and_reraises_witness :
  exists d2 ev,
    monitor_crewai_task (U := ascii_tables) (py "e-1") (12#1)%Q (py "A")
      (py "Analyzer") (py "Analyze") failing_block (tracking_A, empty_db)
    = (inr (Reraised boom), (tracking_A, d2)) /\
    system_events d2 = system_events empty_db ++ [ev] /\
    event_type ev = EventType.ERROR /\
    event_session_id ev = Some (py "s-1") /\
    dget (py "context") (details ev) =
      Some (VDict [(py "execution_time_ms", VFloat (12#1)%Q)]).
Proof.
  apply (monitor_logs_once_and_reraises (U := ascii_tables) (A := unit));
    reflexivity.
Defined.

(** ** Conversations of different categories, names that are substrings *)

Lemma conversation_key_category sid agent c1 c2 :
  conversation_key sid agent c1 = conversation_key sid agent c2 -> c1 = c2.
Proof.
  unfold conversation_key. intro H.
  repeat (apply app_inv_head in H). exact H.
Qed.

(** X20. Two interactions of the same crew session and the same agent whose
    tasks fall into different categories, neither seen before, with the
    store ready and the ids new: each gets a conversation of its own, created
    in the order of the calls, and the messages of each are filed under its
    own conversation. *)
Theorem other_category_other_conversation {U : Unicode} (o : CrewAIObserver)
    (d : db) (crew agent sid : str)
    (uc1 uu1 ua1 um1 task1 input1 response1 : str) (t1 : Q) (tok1 : option (dict Z))
    (uc2 uu2 ua2 um2 task2 input2 response2 : str) (t2 : Q) (tok2 : option (dict Z)) :
  truthy (_get_session_id o crew) = Some sid ->
  ready d = true ->
  _classify_task task1 <> _classify_task task2 ->
  dget (conversation_key sid agent (_classify_task task1))
       (conversation_contexts o) = None ->
  dget (conversation_key sid agent (_classify_task task2))
       (conversation_contexts o) = None ->
  has_id conversation_id_of uc1 (conversations d) = false ->
  has_id conversation_id_of uc2 (conversations d) = false ->
  uc1 <> uc2 ->
  has_id row_id uu1 (messages d) = false ->
  has_id row_id ua1 (messages d) = false ->
  has_id row_id uu2 (messages d) = false ->
  has_id row_id ua2 (messages d) = false ->
  NoDup [uu1; ua1; uu2; ua2] ->
  has_id metrics_id um1 (performance_metrics d) = false ->
  has_id metrics_id um2 (performance_metrics d) = false ->
  um1 <> um2 ->
  exists o1 d1 o2 d2,
    log_agent_interaction uc1 uu1 ua1 um1 crew agent task1 input1 response1
      t1 tok1 (o, d) = (Ok tt, (o1, d1)) /\
    log_agent_interaction uc2 uu2 ua2 um2 crew agent task2 input2 response2
      t2 tok2 (o1, d1) = (Ok tt, (o2, d2)) /\
    conversations d2 = conversations d ++
      [new_conversation uc1 sid agent task1;
       new_conversation uc2 sid agent task2] /\
    messages d2 = messages d ++
      [ {| row_conversation_id := uc1;
           row_message := user_message uu1 agent task1 input1 |};
        {| row_conversation_id := uc1;
           row_message := agent_message ua1 agent response1 t1 |};
        {| row_conversation_id := uc2;
           row_message := user_message uu2 agent task2 input2 |};
        {| row_conversation_id := uc2;
           row_message := agent_message ua2 agent response2 t2 |} ].
Proof.
  intros Hsid Hr Hcat Hk1 Hk2 Huc1 Huc2 Huc Huu1 Hua1 Huu2 Hua2 Hnd Hum1 Hum2 Hum.
  assert (Hids : uu1 <> ua1 /\ uu1 <> uu2 /\ uu1 <> ua2 /\ ua1 <> uu2 /\
                 ua1 <> ua2 /\ uu2 <> ua2).
  { inversion Hnd as [|? ? Ha Hnd1]; subst.
    inversion Hnd1 as [|? ? Hb Hnd2]; subst.
    inversion Hnd2 as [|? ? Hc _]; subst. simpl in *.
    repeat split; intro; subst; tauto. }
  destruct Hids as (N12 & N13 & N14 & N23 & N24 & N34).
  destruct (@log_interaction_step_new U o d uc1 uu1 ua1 um1 crew agent task1
              input1 response1 t1 tok1 sid Hsid Hr Hk1 Huc1 Huu1 Hua1 N12 Hum1)
    as (d1 & Hrun1 & Hr1 & Hc1 & Hm1 & Hp1).
  set (o1 := with_contexts o
               (dset (conversation_key sid agent (_classify_task task1)) uc1
                  (conversation_contexts o))) in *.
  assert (Hsid1 : truthy (_get_session_id o1 crew) = Some sid) by exact Hsid.
  assert (Hk2' : dget (conversation_key sid agent (_classify_task task2))
                   (conversation_contexts o1) = None).
  { unfold o1. simpl. rewrite dget_dset_other; auto.
    intro H. apply conversation_key_category in H. contradiction. }
  assert (Hf : forall x, has_id row_id x (messages d) = false ->
                 uu1 <> x -> ua1 <> x -> has_id row_id x (messages d1) = false).
  { intros x Hx Hx1 Hx2. rewrite Hm1, has_id_app, Hx. simpl. unfold row_id. simpl.
    apply str_eqb_neq in Hx1, Hx2. now rewrite Hx1, Hx2. }
  assert (Huc2' : has_id conversation_id_of uc2 (conversations d1) = false).
  { rewrite Hc1, has_id_app, Huc2. simpl.
    apply str_eqb_neq in Huc. now rewrite Huc. }
  assert (Hum2' : has_id metrics_id um2 (performance_metrics d1) = false).
  { rewrite Hp1, has_id_app, Hum2. simpl.
    apply str_eqb_neq in Hum. now rewrite Hum. }
  destruct (@log_interaction_step_new U o1 d1 uc2 uu2 ua2 um2 crew agent task2
              input2 response2 t2 tok2 sid Hsid1 Hr1 Hk2' Huc2'
              (Hf _ Huu2 N13 N23) (Hf _ Hua2 N14 N24) N34 Hum2')
    as (d2 & Hrun2 & Hr2 & Hc2 & Hm2 & Hp2).
  exists o1, d1. do 2 eexists. split; [exact Hrun1|]. split; [exact Hrun2|].
  rewrite Hc2, Hc1, Hm2, Hm1, <- !app_assoc. split; reflexivity.
Qed.

Lemma other_category_other_conversation_witness :
  exists o1 d1 o2 d2,
    log_agent_interaction (U := ascii_tables) (py "c-1") (py "m-1") (py "m-2")
      (py "p-1") (py "A") (py "Analyzer") (py "Analyze the chart")
      (py "in") (py "out") (5#1)%Q None (tracking_A, empty_db)
    = (Ok tt, (o1, d1)) /\
    log_agent_interaction (U := ascii_tables) (py "c-2") (py "m-3") (py "m-4")
      (py "p-2") (py "A") (py "Analyzer") (py "Extract the labs")
      (py "in") (py "out") (7#1)%Q None (o1, d1)
    = (Ok tt, (o2, d2)) /\
    length (conversations d2) = 2 /\
    map row_conversation_id (messages d2) =
      [py "c-1"; py "c-1"; py "c-2"; py "c-2"].
Proof.
  destruct (@other_category_other_conversation ascii_tables tracking_A empty_db
              (py "A") (py "Analyzer") (py "s-1")
              (py "c-1") (py "m-1") (py "m-2") (py "p-1")
              (py "Analyze the chart") (py "in") (py "out") (5#1)%Q None
              (py "c-2") (py "m-3") (py "m-4") (py "p-2")
              (py "Extract the labs") (py "in") (py "out") (7#1)%Q None)
    as (o1 & d1 & o2 & d2 & H1 & H2 & Hc & Hm); try reflexivity;
    try (intro H; vm_compute in H; discriminate).
  - repeat constructor; simpl; intro H;
      repeat (destruct H as [H|H]; [vm_compute in H; discriminate|]); exact H.
  - exists o1, d1, o2, d2.
    split; [exact H1|]. split; [exact H2|].
    rewrite Hc, Hm. split; reflexivity.
Defined.

(** X21. A crew is resolved by looking for its name inside the tracked keys,
    oldest first. So the session tracked first under the key of crew [c] and
    second [now] is what [c] resolves to, and also what the empty name, the
    word "crew" and the digits of [now] resolve to. *)
Theorem resolution_is_by_substring (o : CrewAIObserver) (c sid : str) (now : Z)
    (rest : dict str) :
  active_sessions o = (crew_id_of c now, sid) :: rest ->
  _get_session_id o c = Some sid /\
  _get_session_id o [] = Some sid /\
  _get_session_id o (py "crew") = Some sid /\
  _get_session_id o (str_of_int now) = Some sid.
Proof.
  intro H. unfold _get_session_id. rewrite H. cbn [find fst].
  rewrite crew_in_own_key, contains_nil.
  assert (H1 : contains (py "crew") (crew_id_of c now) = true).
  { unfold crew_id_of.
    change (py "crew_" ++ c ++ py "_" ++ str_of_int now)
      with ([] ++ py "crew" ++ (py "_" ++ c ++ py "_" ++ str_of_int now)).
    apply contains_middle. }
  assert (H2 : contains (str_of_int now) (crew_id_of c now) = true).
  { unfold crew_id_of.
    replace (py "crew_" ++ c ++ py "_" ++ str_of_int now)
      with ((py "crew_" ++ c ++ py "_") ++ str_of_int now ++ []).
    - apply contains_middle.
    - rewrite app_nil_r, <- !app_assoc. reflexivity. }
  rewrite H1, H2. auto.
Qed.

Lemma resolution_is_by_substring_witness :
  _get_session_id tracking_A (py "A") = Some (py "s-1") /\
  _get_session_id tracking_A [] = Some (py "s-1") /\
  _get_session_id tracking_A (py "crew") = Some (py "s-1") /\
  _get_session_id tracking_A (str_of_int 1000) = Some (py "s-1").
Proof.
  apply (@resolution_is_by_substring tracking_A (py "A") (py "s-1") 1000%Z []).
  reflexivity.
Defined.

(** ** What a session and an interaction persist *)

(** X22. A successful [start_crew_session] persists, in the configuration of
    the session, the framework name, the agent names as they were given and
    the task descriptions sanitized, none longer than 200 characters; the
    session is named after the crew. *)
Theorem start_session_configuration {U : Unicode} (o : CrewAIObserver)
    (d : db) (now : Z) (us ue crew : str) (agents tasks : list str)
    (meta : option (dict value)) :
  ready d = true ->
  has_id session_id_of us (agent_sessions d) = false ->
  has_id event_id ue (system_events d) = false ->
  exists o' d' session,
    start_crew_session now us ue crew agents tasks meta (o, d)
    = (Ok us, (o', d')) /\
    find (fun r => str_eqb (session_id_of r) us) (agent_sessions d')
    = Some session /\
    agent_name session = py "CrewAI: " ++ crew /\
    dget (py "framework") (configuration session) = Some (VStr (py "CrewAI")) /\
    dget (py "agents") (configuration session) = Some (VList (map VStr agents)) /\
    dget (py "task_descriptions") (configuration session) =
      Some (VList (map (fun task => VStr (_sanitize_task_description task)) tasks)) /\
    Forall (fun task => length (_sanitize_task_description task) <= 200) tasks.
Proof.
  intros Hr Hus Hue.
  unfold start_crew_session, bind, self, db_call, create_session,
    set_active_sessions, _log_event, add_event, ret. cbn [fst snd].
  rewrite insert_ok by auto. cbn [fst snd].
  unfold db_call. cbn [fst snd].
  rewrite insert_ok by auto. cbn [fst snd].
  do 3 eexists. split; [reflexivity|]. split.
  - cbn [agent_sessions set_events set_sessions].
    apply find_fresh_app; auto.
  - cbn [agent_name configuration].
    repeat split; try reflexivity.
    apply Forall_forall. intros task _.
    unfold _sanitize_task_description, slice_to. apply firstn_le_length.
Qed.

Lemma start_session_configuration_witness :
  exists o' d' session,
    start_crew_session (U := ascii_tables) 1000 (py "s-1") (py "e-1") (py "A")
      [py "John Smith"] [py "Analyze chart of Jane Doe"] None
      (new_observer (py "EHR"), empty_db)
    = (Ok (py "s-1"), (o', d')) /\
    find (fun r => str_eqb (session_id_of r) (py "s-1")) (agent_sessions d')
    = Some session /\
    agent_name session = py "CrewAI: " ++ py "A" /\
    dget (py "framework") (configuration session) = Some (VStr (py "CrewAI")) /\
    dget (py "agents") (configuration session)
    = Some (VList (map VStr [py "John Smith"])) /\
    dget (py "task_descriptions") (configuration session) =
      Some (VList (map (fun task =>
                          VStr (_sanitize_task_description (U := ascii_tables) task))
                     [py "Analyze chart of Jane Doe"])) /\
    Forall (fun task =>
              length (_sanitize_task_description (U := ascii_tables) task) <= 200)
      [py "Analyze chart of Jane Doe"].
Proof. apply (start_session_configuration (U := ascii_tables)); reflexivity. Defined.

Lemma token_count_default (k : str) (tok : option (dict Z)) :
  token_count k tok =
  match tok with Some t => dget_default k 0%Z t | None => 0%Z end.
Proof. destruct tok as [[|? ?]|]; reflexivity. Qed.

(** X23. The metrics row of a successful interaction belongs to the session
    the crew resolves to and to the conversation of its two messages; it
    counts as input and output tokens what the usage dict holds under "input"
    and "output", zero for a key that is missing and for a dict that is
    missing or empty; its error count is zero and it has no quality score. *)
Theorem interaction_metrics_row {U : Unicode} (o : CrewAIObserver) (d : db)
    (uc uu ua um crew agent task input response : str) (t : Q)
    (tok : option (dict Z)) (sid : str) :
  truthy (_get_session_id o crew) = Some sid ->
  ready d = true ->
  (dget (conversation_key sid agent (_classify_task task))
        (conversation_contexts o) = None ->
   has_id conversation_id_of uc (conversations d) = false) ->
  has_id row_id uu (messages d) = false ->
  has_id row_id ua (messages d) = false ->
  uu <> ua ->
  has_id metrics_id um (performance_metrics d) = false ->
  exists o' d' mu ma pm,
    log_agent_interaction uc uu ua um crew agent task input response t tok (o, d)
    = (Ok tt, (o', d')) /\
    messages d' = messages d ++ [mu; ma] /\
    performance_metrics d' = performance_metrics d ++ [pm] /\
    metrics_session_id pm = sid /\
    metrics_conversation_id pm = Some (row_conversation_id mu) /\
    metrics_conversation_id pm = Some (row_conversation_id ma) /\
    token_count_input pm =
      match tok with Some u => dget_default (py "input") 0%Z u | None => 0%Z end /\
    token_count_output pm =
      match tok with Some u => dget_default (py "output") 0%Z u | None => 0%Z end /\
    error_count pm = 0%Z /\
    quality_score pm = None.
Proof.
  intros Hsid Hr Hconv Huu Hua Hne Hum.
  destruct (@log_interaction_step U o d uc uu ua um crew agent task input
              response t tok sid Hsid Hr Hconv Huu Hua Hne Hum)
    as (o1 & d1 & Hrun & _ & _ & _ & _ & Hm & Hp).
  do 5 eexists. split; [exact Hrun|]. split; [exact Hm|]. split; [exact Hp|].
  cbn [interaction_metrics metrics_session_id metrics_conversation_id
         token_count_input token_count_output error_count quality_score
         row_conversation_id].
  rewrite !token_count_default. repeat split; reflexivity.
Qed.

Lemma interaction_metrics_row_witness :
  exists o' d' mu ma pm,
    log_agent_interaction (U := ascii_tables) (py "c-1") (py "m-1") (py "m-2")
      (py "p-1") (py "A") (py "Analyzer") (py "Analyze the chart")
      (py "in") (py "out") (5#1)%Q (Some [(py "input", 150%Z)])
      (tracking_A, empty_db)
    = (Ok tt, (o', d')) /\
    messages d' = messages empty_db ++ [mu; ma] /\
    performance_metrics d' = performance_metrics empty_db ++ [pm] /\
    metrics_session_id pm = py "s-1" /\
    metrics_conversation_id pm = Some (row_conversation_id mu) /\
    metrics_conversation_id pm = Some (row_conversation_id ma) /\
    token_count_input pm = dget_default (py "input") 0%Z [(py "input", 150%Z)] /\
    token_count_output pm = dget_default (py "output") 0%Z [(py "input", 150%Z)] /\
    error_count pm = 0%Z /\
    quality_score pm = None.
Proof.
  apply (@interaction_metrics_row ascii_tables tracking_A empty_db
           (py "c-1") (py "m-1") (py "m-2") (py "p-1") (py "A") (py "Analyzer")
           (py "Analyze the chart") (py "in") (py "out") (5#1)%Q
           (Some [(py "input", 150%Z)]) (py "s-1")); try reflexivity.
  intro H. vm_compute in H. discriminate.
Defined.

(** ** Classification and longer descriptions *)

Lemma starts_with_split (p s : str) :
  starts_with p s = true -> exists q, s = p ++ q.
Proof.
  revert s. induction p as [|c p IH]; intros s H; simpl in *.
  - exists s. reflexivity.
  - destruct s as [|e s]; [discriminate|].
    apply andb_true_iff in H as [Hc Hp]. apply N.eqb_eq in Hc. subst.
    destruct (IH _ Hp) as [q ->]. exists q. reflexivity.
Qed.

Lemma contains_split (kw s : str) :
  contains kw s = true -> exists p q, s = p ++ kw ++ q.
Proof.
  induction s as [|c s IH]; intro H.
  - simpl in H. rewrite orb_false_r in H.
    destruct (starts_with_split _ _ H) as [q Hq]. exists [], q. exact Hq.
  - unfold contains in H. fold contains in H.
    apply orb_true_iff in H as [H|H].
    + destruct (starts_with_split _ _ H) as [q Hq]. exists [], q. exact Hq.
    + destruct (IH H) as (p & q & ->). exists (c :: p), q. reflexivity.
Qed.

Lemma contains_extend (kw s l r : str) :
  contains kw s = true -> contains kw (l ++ s ++ r) = true.
Proof.
  intro H. destruct (contains_split _ _ H) as (p & q & ->).
  replace (l ++ (p ++ kw ++ q) ++ r) with ((l ++ p) ++ kw ++ (q ++ r)).
  - apply contains_middle.
  - now rewrite <- !app_assoc.
Qed.

Lemma lower_app {U : Unicode} (a b : str) : lower (a ++ b) = lower a ++ lower b.
Proof. unfold lower. apply flat_map_app. Qed.

(** X24. A description classified ANALYSIS stays ANALYSIS whatever text is
    put before and after it: the keywords are looked for anywhere in the
    lower-cased text and "analyze" and "review" are tried first. *)
Theorem analysis_survives_extension {U : Unicode} (task before after : str) :
  _classify_task task = py "ANALYSIS" ->
  _classify_task (before ++ task ++ after) = py "ANALYSIS".
Proof.
  intro H. unfold _classify_task in *.
  rewrite !lower_app.
  destruct (contains (py "analyze") (lower task)) eqn:E1.
  - rewrite (contains_extend _ _ _ _ E1). reflexivity.
  - destruct (contains (py "review") (lower task)) eqn:E2.
    + rewrite (contains_extend _ _ _ _ E2), orb_true_r. reflexivity.
    + exfalso. simpl in H.
      destruct (contains (py "extract") (lower task) ||
                contains (py "parse") (lower task))%bool;
        [vm_compute in H; discriminate|].
      destruct (contains (py "summarize") (lower task) ||
                contains (py "summary") (lower task))%bool;
        [vm_compute in H; discriminate|].
      destruct (contains (py "validate") (lower task) ||
                contains (py "check") (lower task))%bool;
        vm_compute in H; discriminate.
Qed.

Lemma analysis_survives_extension_witness :
  _classify_task (U := ascii_tables)
    (py "Extract, then " ++ py "Review the chart" ++ py " and validate it")
  = py "ANALYSIS".
Proof.
  apply (analysis_survives_extension (U := ascii_tables)). reflexivity.
Defined.
